(** * cdc-subscriber: the Pub/Sub push handler of [main.py]

    A shallow embedding of the Flask view [index] and of the two query
    builders [run_bq_delete] and [run_bq_merge], followed by the properties
    of the handler that the specification talks about.

    Python values are the ones [json.loads] and [request.get_json] can
    produce.  A Python [str] is represented by its UTF-8 bytes.  Calls into
    the interpreter's libraries ([base64], [bytes.decode], [json], [repr])
    and into the BigQuery client are fields of a [runtime] record, so every
    general statement holds for whatever these libraries do. *)

From Stdlib Require Import String Ascii ZArith List Bool Lia.
From Stdlib Require Import DecimalString DecimalPos DecimalFacts.
Import ListNotations.

Local Open Scope string_scope.
Local Open Scope Z_scope.

(** ** Python values *)

Module Py.

(** What [json.loads] returns.  A float is kept as the two things the
    handler can observe of it: its truth value and its [str()]. *)
#[warnings="-register-all"]
Inductive value : Type :=
| VNone
| VBool (b : bool)
| VInt (n : Z)
| VFloat (nonzero : bool) (text : string)
| VStr (s : string)
| VList (l : list value)
| VDict (d : list (string * value)).

(** Exceptions, all of them subclasses of [Exception].  [WarehouseError]
    is an error of the BigQuery client, tagged with whether a retry could
    help; [OtherError] is any further exception class, by name. *)
Inductive exn : Type :=
| TypeError
| KeyError (key : string)
| AttributeError
| ValueError
| UnicodeDecodeError
| JSONDecodeError
| HTTPException (code : Z)
| WarehouseError (retryable : bool)
| OtherError (name : string).

Inductive outcome (A : Type) : Type :=
| Ok (a : A)
| Raise (e : exn).
Arguments Ok {A} a.
Arguments Raise {A} e.

(** [isinstance(e, json.JSONDecodeError)] *)
Definition is_JSONDecodeError (e : exn) : bool :=
  match e with JSONDecodeError => true | _ => false end.

(** Dictionaries are association lists; the first binding of a key counts. *)
Fixpoint lookup (k : string) (d : list (string * value)) : option value :=
  match d with
  | [] => None
  | (k', v) :: d' => if String.eqb k k' then Some v else lookup k d'
  end.

Definition has_key (k : string) (d : list (string * value)) : bool :=
  match lookup k d with Some _ => true | None => false end.

(** [bool(v)] *)
Definition truthy (v : value) : bool :=
  match v with
  | VNone => false
  | VBool b => b
  | VInt n => negb (n =? 0)
  | VFloat nonzero _ => nonzero
  | VStr s => negb (String.eqb s "")
  | VList l => match l with [] => false | _ => true end
  | VDict d => match d with [] => false | _ => true end
  end.

(** [v == k] for a string constant [k] *)
Definition eq_str (k : string) (v : value) : bool :=
  match v with VStr s => String.eqb s k | _ => false end.

(** [k in s] on two strings *)
Fixpoint is_substring (k s : string) : bool :=
  if String.prefix k s then true
  else match s with
       | EmptyString => false
       | String _ s' => is_substring k s'
       end.

(** [k in v] for a string constant [k] *)
Definition contains (k : string) (v : value) : outcome bool :=
  match v with
  | VDict d => Ok (has_key k d)
  | VList l => Ok (existsb (eq_str k) l)
  | VStr s => Ok (is_substring k s)
  | VNone | VBool _ | VInt _ | VFloat _ _ => Raise TypeError
  end.

(** [v[k]] for a string constant [k] *)
Definition getitem (v : value) (k : string) : outcome value :=
  match v with
  | VDict d => match lookup k d with
               | Some x => Ok x
               | None => Raise (KeyError k)
               end
  | _ => Raise TypeError
  end.

(** [v.get(k)] *)
Definition get (v : value) (k : string) : outcome value :=
  match v with
  | VDict d => Ok (match lookup k d with Some x => x | None => VNone end)
  | _ => Raise AttributeError
  end.

(** [str(n)] for an integer *)
Definition str_of_int (n : Z) : string :=
  NilZero.string_of_int (Z.to_int n).

End Py.
Import Py.

(** ** What the handler does to the outside world *)

(** One constructor per [print] of the source, with the values it shows. *)
Inductive log_line : Type :=
| LogClientMissing
| LogBadRequest
| LogNoPayload (pubsub_data : string)
| LogNoOpOrData (payload : value)
| LogProcessing (op data : value)
| LogRunningQuery (query : string)
| LogDeleted (pk_id : value)
| LogMerged (id : value)
| LogJsonError (data : value)
| LogUnexpected (e : exn).

(** [bq_client.query(query)]: the query text is the only argument, the
    job configuration (where query parameters would go) is left out. *)
Inductive event : Type :=
| Printed (l : log_line)
| Queried (query : string).

(** The state a request runs in: the warehouse behind the client, and the
    events so far, oldest first. *)
Record world (W : Type) : Type := World { warehouse : W; trace : list event }.
Arguments World {W} warehouse trace.
Arguments warehouse {W} w.
Arguments trace {W} w.

(** The environment of the module: configuration, the client made at
    import time ([None] when [bigquery.Client()] raised), and the library
    functions the handler calls. *)
Record runtime (W : Type) : Type := Runtime {
  PROJECT_ID : option string;
  bq_client : option (string -> W -> outcome unit * W);
  b64decode : value -> outcome string;
  decode_utf8 : string -> outcome string;
  json_loads : string -> outcome value;
  repr : value -> string
}.
Arguments Runtime {W}.
Arguments PROJECT_ID {W} r.
Arguments bq_client {W} r.
Arguments b64decode {W} r.
Arguments decode_utf8 {W} r.
Arguments json_loads {W} r.
Arguments repr {W} r.

(** What [request.get_json()] does: it returns the parsed body ([VNone]
    also when there is none), or aborts the request with an HTTP error. *)
Record request : Type := Request { get_json : outcome value }.

Definition response : Type := (string * Z)%type.

(** ** A state and exception monad *)

Definition M (W A : Type) : Type := world W -> outcome A * world W.

Definition ret {W A} (a : A) : M W A := fun w => (Ok a, w).

Definition bind {W A B} (m : M W A) (k : A -> M W B) : M W B :=
  fun w => match m w with
           | (Ok a, w') => k a w'
           | (Raise e, w') => (Raise e, w')
           end.

Definition lift {W A} (o : outcome A) : M W A := fun w => (o, w).

Definition emit {W} (e : event) : M W unit :=
  fun w => (Ok tt, World (warehouse w) (trace w ++ [e])).

Definition print {W} (l : log_line) : M W unit := emit (Printed l).

Declare Scope py_scope.
Delimit Scope py_scope with py.
Notation "x <- m ;; k" := (bind m (fun x => k))
  (at level 100, m at next level, right associativity) : py_scope.
Notation "m ;; k" := (bind m (fun _ => k))
  (at level 100, right associativity) : py_scope.
Local Open Scope py_scope.

(** [try: body / except json.JSONDecodeError: h1 / except Exception: h2],
    each handler being given the exception. *)
Definition try_except {W A} (body : M W A) (h1 h2 : exn -> M W A) : M W A :=
  fun w => match body w with
           | (Ok a, w') => (Ok a, w')
           | (Raise e, w') => if is_JSONDecodeError e then h1 e w' else h2 e w'
           end.

(** ** The handler *)

Section Handler.

Context {W : Type}.
Variable rt : runtime W.

Definition nl : string := String (ascii_of_nat 10) EmptyString.

(** [str(v)], as the f-strings apply it to a row's fields *)
Definition str (v : value) : string :=
  match v with
  | VNone => "None"
  | VBool true => "True"
  | VBool false => "False"
  | VInt n => str_of_int n
  | VFloat _ text => text
  | VStr s => s
  | VList _ | VDict _ => repr rt v
  end.

(** [TABLE_ID = f"{PROJECT_ID}.my_bq_dataset.customers"] *)
Definition TABLE_ID : string :=
  match PROJECT_ID rt with Some p => p | None => "None" end
  ++ ".my_bq_dataset.customers".

(** [bq_client.query(query).result()], on the client [c] *)
Definition run_query (c : string -> W -> outcome unit * W) (query : string)
  : M W unit :=
  fun w =>
    let '(r, wh) := c query (warehouse w) in
    (r, World wh (trace w ++ [Queried query])).

(** The text of the DELETE statement for the key [pk_id] *)
Definition delete_query (pk_id : value) : string :=
  nl ++ "        DELETE FROM `" ++ TABLE_ID ++ "`" ++ nl ++
  "        WHERE id = " ++ str pk_id ++ nl ++
  "    ".

Definition run_bq_delete (c : string -> W -> outcome unit * W) (data : value)
  : M W unit :=
  pk_id <- lift (getitem data "id") ;;
  let query := delete_query pk_id in
  print (LogRunningQuery query) ;;
  run_query c query ;;
  print (LogDeleted pk_id).

(** The text of the MERGE statement for the four fields of a row *)
Definition merge_query (id first_name last_name email : value) : string :=
  nl ++ "        MERGE `" ++ TABLE_ID ++ "` T" ++ nl ++
  "        USING (SELECT" ++ nl ++
  "            " ++ str id ++ " as id," ++ nl ++
  "            '" ++ str first_name ++ "' as first_name," ++ nl ++
  "            '" ++ str last_name ++ "' as last_name," ++ nl ++
  "            '" ++ str email ++ "' as email" ++ nl ++
  "        ) S" ++ nl ++
  "        ON T.id = S.id" ++ nl ++
  "        WHEN MATCHED THEN" ++ nl ++
  "            UPDATE SET" ++ nl ++
  "                first_name = S.first_name," ++ nl ++
  "                last_name = S.last_name," ++ nl ++
  "                email = S.email" ++ nl ++
  "        WHEN NOT MATCHED THEN" ++ nl ++
  "            INSERT (id, first_name, last_name, email)" ++ nl ++
  "            VALUES (S.id, S.first_name, S.last_name, S.email)" ++ nl ++
  "    ".

Definition run_bq_merge (c : string -> W -> outcome unit * W) (data : value)
  : M W unit :=
  id <- lift (getitem data "id") ;;
  first_name <- lift (getitem data "first_name") ;;
  last_name <- lift (getitem data "last_name") ;;
  email <- lift (getitem data "email") ;;
  let query := merge_query id first_name last_name email in
  print (LogRunningQuery query) ;;
  run_query c query ;;
  print (LogMerged id).

(** The body of the [try] block.  [Some r] is a [return r] inside the
    block, [None] is falling off its end. *)
Definition process (c : string -> W -> outcome unit * W) (envelope : value)
  : M W (option response) :=
  message <- lift (getitem envelope "message") ;;
  data64 <- lift (getitem message "data") ;;
  raw <- lift (b64decode rt data64) ;;
  pubsub_data <- lift (decode_utf8 rt raw) ;;
  payload_data <- lift (json_loads rt pubsub_data) ;;
  has_payload <- lift (contains "payload" payload_data) ;;
  if negb has_payload then
    print (LogNoPayload pubsub_data) ;;
    ret (Some ("", 204))
  else
    payload <- lift (getitem payload_data "payload") ;;
    op <- lift (get payload "op") ;;
    data <- lift (if negb (eq_str "d" op) then get payload "after"
                  else get payload "before") ;;
    if negb (truthy data) || negb (truthy op) then
      print (LogNoOpOrData payload) ;;
      ret (Some ("", 204))
    else
      print (LogProcessing op data) ;;
      (if eq_str "d" op then run_bq_delete c data else run_bq_merge c data) ;;
      ret None.

(** [not envelope or "message" not in envelope] *)
Definition no_message (envelope : value) : outcome bool :=
  if negb (truthy envelope) then Ok true
  else match contains "message" envelope with
       | Ok b => Ok (negb b)
       | Raise e => Raise e
       end.

(** The view function.  [Raise e] is an exception that leaves it. *)
Definition index (req : request) : M W response :=
  match bq_client rt with
  | None =>
      print LogClientMissing ;;
      ret ("BigQuery client not initialized", 200)
  | Some c =>
      envelope <- lift (get_json req) ;;
      bad <- lift (no_message envelope) ;;
      if bad then
        print LogBadRequest ;;
        ret ("Bad Request: No Pub/Sub message received", 400)
      else
        r <- try_except (process c envelope)
               (fun e =>
                  message <- lift (getitem envelope "message") ;;
                  data64 <- lift (getitem message "data") ;;
                  print (LogJsonError data64) ;;
                  ret (Some ("Message processing error", 200)))
               (fun e =>
                  print (LogUnexpected e) ;;
                  ret (Some ("Message processing error", 200))) ;;
        match r with
        | Some resp => ret resp
        | None => ret ("", 204)
        end
  end.

End Handler.

(** ** The interpreter's libraries, for running the handler on messages

    Models of the functions of Python's library that the handler calls:
    [base64.b64decode] (as [binascii.a2b_base64] does it when not strict),
    [bytes.decode("utf-8")], [json.loads] and [repr].  The JSON parser
    covers objects, arrays, strings with the one-letter escapes, integers
    and the three literals; on a number with a fraction or an exponent, on
    [NaN] and [Infinity] and on a [\u] escape it raises
    [OtherError "unsupported"], where [json.loads] would go on. *)

Module Lib.

Definition byte_of (c : ascii) : Z := Z.of_nat (nat_of_ascii c).

(** *** base64 *)

(** The value of a character of the base64 alphabet *)
Definition b64_value (c : ascii) : option Z :=
  let n := byte_of c in
  if (65 <=? n) && (n <=? 90) then Some (n - 65)
  else if (97 <=? n) && (n <=? 122) then Some (n - 71)
  else if (48 <=? n) && (n <=? 57) then Some (n + 4)
  else if n =? 43 then Some 62
  else if n =? 47 then Some 63
  else None.

Definition chr (n : Z) : ascii := ascii_of_nat (Z.to_nat (n mod 256)).

(** The decoding loop: [quad_pos] is the position in the current group of
    four, [leftchar] the bits not yet written, [pads] the padding
    characters seen in a row.  The result is the bytes in reverse. *)
Fixpoint a2b_loop (s : string) (quad_pos leftchar pads : Z) (acc : list ascii)
  : option (list ascii) :=
  match s with
  | EmptyString => if quad_pos =? 0 then Some acc else None
  | String c s' =>
      if Ascii.eqb c "="%char then
        if (2 <=? quad_pos) && (4 <=? quad_pos + (pads + 1)) then Some acc
        else a2b_loop s' quad_pos leftchar
               (if 2 <=? quad_pos then pads + 1 else pads) acc
      else
        match b64_value c with
        | None => a2b_loop s' quad_pos leftchar pads acc
        | Some v =>
            if quad_pos =? 0 then a2b_loop s' 1 v 0 acc
            else if quad_pos =? 1 then
              a2b_loop s' 2 (Z.land v 15) 0
                (chr (Z.lor (Z.shiftl leftchar 2) (Z.shiftr v 4)) :: acc)
            else if quad_pos =? 2 then
              a2b_loop s' 3 (Z.land v 3) 0
                (chr (Z.lor (Z.shiftl leftchar 4) (Z.shiftr v 2)) :: acc)
            else
              a2b_loop s' 0 0 0 (chr (Z.lor (Z.shiftl leftchar 6) v) :: acc)
        end
  end.

Definition is_ascii (s : string) : bool :=
  forallb (fun c => byte_of c <? 128) (list_ascii_of_string s).

(** [base64.b64decode(v)] *)
Definition b64decode (v : value) : outcome string :=
  match v with
  | VStr s =>
      if is_ascii s then
        match a2b_loop s 0 0 0 [] with
        | Some acc => Ok (string_of_list_ascii (rev acc))
        | None => Raise ValueError
        end
      else Raise ValueError
  | _ => Raise TypeError
  end.

(** *** UTF-8 *)

Definition in_range (lo hi : Z) (c : ascii) : bool :=
  (lo <=? byte_of c) && (byte_of c <=? hi).

Definition cont (c : ascii) : bool := in_range 128 191 c.

(** Well-formed UTF-8, code point by code point *)
Fixpoint utf8_valid (fuel : nat) (s : string) : bool :=
  match fuel with
  | O => false
  | S fuel' =>
      match s with
      | EmptyString => true
      | String a r =>
          if in_range 0 127 a then utf8_valid fuel' r
          else match r with
          | String b r1 =>
              if in_range 194 223 a then cont b && utf8_valid fuel' r1
              else match r1 with
              | String c r2 =>
                  if in_range 224 239 a then
                    (if byte_of a =? 224 then in_range 160 191 b
                     else if byte_of a =? 237 then in_range 128 159 b
                     else cont b)
                    && cont c && utf8_valid fuel' r2
                  else match r2 with
                  | String d r3 =>
                      in_range 240 244 a
                      && (if byte_of a =? 240 then in_range 144 191 b
                          else if byte_of a =? 244 then in_range 128 143 b
                          else cont b)
                      && cont c && cont d && utf8_valid fuel' r3
                  | EmptyString => false
                  end
              | EmptyString => false
              end
          | EmptyString => false
          end
      end
  end.

(** [raw.decode("utf-8")]: a [str] is kept as its UTF-8 bytes *)
Definition decode_utf8 (raw : string) : outcome string :=
  if utf8_valid (S (String.length raw)) raw then Ok raw
  else Raise UnicodeDecodeError.

(** *** JSON *)

Definition is_ws (c : ascii) : bool :=
  let n := byte_of c in (n =? 32) || (n =? 9) || (n =? 10) || (n =? 13).

Fixpoint skip_ws (s : string) : string :=
  match s with
  | String c r => if is_ws c then skip_ws r else s
  | EmptyString => s
  end.

Definition is_digit (c : ascii) : bool := in_range 48 57 c.

(** The digits at the head of [s], read on from [acc], and what follows *)
Fixpoint scan_digits (s : string) (acc : Z) : Z * string :=
  match s with
  | String c r =>
      if is_digit c then scan_digits r (10 * acc + (byte_of c - 48))
      else (acc, s)
  | EmptyString => (acc, s)
  end.

Definition unsupported {A} : outcome A := Raise (OtherError "unsupported").

Definition starts_float_tail (s : string) : bool :=
  match s with
  | String c _ => (byte_of c =? 46) || (byte_of c =? 101) || (byte_of c =? 69)
  | EmptyString => false
  end.

(** An integer literal without its sign: [0] or a digit from 1 to 9
    followed by digits *)
Definition scan_nat (s : string) : outcome (Z * string) :=
  match s with
  | String c r =>
      if byte_of c =? 48 then
        if starts_float_tail r then unsupported else Ok (0, r)
      else if is_digit c then
        let '(n, r') := scan_digits s 0 in
        if starts_float_tail r' then unsupported else Ok (n, r')
      else Raise JSONDecodeError
  | EmptyString => Raise JSONDecodeError
  end.

(** The body of a string literal, after its opening quote *)
Fixpoint scan_string (s : string) (acc : list ascii) : outcome (string * string) :=
  match s with
  | EmptyString => Raise JSONDecodeError
  | String c r =>
      if byte_of c =? 34 then Ok (string_of_list_ascii (rev acc), r)
      else if byte_of c <? 32 then Raise JSONDecodeError
      else if byte_of c =? 92 then
        match r with
        | String e r' =>
            let n := byte_of e in
            if (n =? 34) || (n =? 92) || (n =? 47) then scan_string r' (e :: acc)
            else if n =? 98 then scan_string r' (chr 8 :: acc)
            else if n =? 102 then scan_string r' (chr 12 :: acc)
            else if n =? 110 then scan_string r' (chr 10 :: acc)
            else if n =? 114 then scan_string r' (chr 13 :: acc)
            else if n =? 116 then scan_string r' (chr 9 :: acc)
            else if n =? 117 then unsupported
            else Raise JSONDecodeError
        | EmptyString => Raise JSONDecodeError
        end
      else scan_string r (c :: acc)
  end.

(** [d[k] = v] on a dictionary *)
Fixpoint dict_set (k : string) (v : value) (d : list (string * value))
  : list (string * value) :=
  match d with
  | [] => [(k, v)]
  | (k', v') :: d' =>
      if String.eqb k k' then (k', v) :: d' else (k', v') :: dict_set k v d'
  end.

Fixpoint parse_value (fuel : nat) (s : string) {struct fuel}
  : outcome (value * string) :=
  match fuel with
  | O => Raise (OtherError "RecursionError")
  | S fuel' =>
      match s with
      | EmptyString => Raise JSONDecodeError
      | String c r =>
          let n := byte_of c in
          if n =? 34 then
            match scan_string r [] with
            | Ok (k, r') => Ok (VStr k, r')
            | Raise e => Raise e
            end
          else if n =? 123 then
            match skip_ws r with
            | String c' r' =>
                if byte_of c' =? 125 then Ok (VDict [], r')
                else parse_members fuel' (skip_ws r) []
            | EmptyString => Raise JSONDecodeError
            end
          else if n =? 91 then
            match skip_ws r with
            | String c' r' =>
                if byte_of c' =? 93 then Ok (VList [], r')
                else parse_items fuel' (skip_ws r) []
            | EmptyString => Raise JSONDecodeError
            end
          else if String.prefix "null" s then Ok (VNone, substring 4 (String.length s) s)
          else if String.prefix "true" s then
            Ok (VBool true, substring 4 (String.length s) s)
          else if String.prefix "false" s then
            Ok (VBool false, substring 5 (String.length s) s)
          else if String.prefix "NaN" s || String.prefix "Infinity" s
                  || String.prefix "-Infinity" s then unsupported
          else if n =? 45 then
            match scan_nat r with
            | Ok (m, r') => Ok (VInt (- m), r')
            | Raise e => Raise e
            end
          else
            match scan_nat s with
            | Ok (m, r') => Ok (VInt m, r')
            | Raise e => Raise e
            end
      end
  end

with parse_members (fuel : nat) (s : string) (acc : list (string * value))
  {struct fuel} : outcome (value * string) :=
  match fuel with
  | O => Raise (OtherError "RecursionError")
  | S fuel' =>
      match s with
      | String q r =>
          if byte_of q =? 34 then
            match scan_string r [] with
            | Raise e => Raise e
            | Ok (k, r1) =>
                match skip_ws r1 with
                | String colon r2 =>
                    if byte_of colon =? 58 then
                      match parse_value fuel' (skip_ws r2) with
                      | Raise e => Raise e
                      | Ok (v, r3) =>
                          let acc' := dict_set k v acc in
                          match skip_ws r3 with
                          | String c r4 =>
                              if byte_of c =? 125 then Ok (VDict acc', r4)
                              else if byte_of c =? 44 then
                                parse_members fuel' (skip_ws r4) acc'
                              else Raise JSONDecodeError
                          | EmptyString => Raise JSONDecodeError
                          end
                      end
                    else Raise JSONDecodeError
                | EmptyString => Raise JSONDecodeError
                end
            end
          else Raise JSONDecodeError
      | EmptyString => Raise JSONDecodeError
      end
  end

with parse_items (fuel : nat) (s : string) (acc : list value)
  {struct fuel} : outcome (value * string) :=
  match fuel with
  | O => Raise (OtherError "RecursionError")
  | S fuel' =>
      match parse_value fuel' s with
      | Raise e => Raise e
      | Ok (v, r) =>
          match skip_ws r with
          | String c r' =>
              if byte_of c =? 93 then Ok (VList (rev (v :: acc)), r')
              else if byte_of c =? 44 then
                parse_items fuel' (skip_ws r') (v :: acc)
              else Raise JSONDecodeError
          | EmptyString => Raise JSONDecodeError
          end
      end
  end.

(** [json.loads(s)] *)
Definition json_loads (s : string) : outcome value :=
  match parse_value (S (String.length s)) (skip_ws s) with
  | Raise e => Raise e
  | Ok (v, r) =>
      match skip_ws r with
      | EmptyString => Ok v
      | String _ _ => Raise JSONDecodeError
      end
  end.

(** *** repr *)

Definition hex_digit (n : Z) : ascii :=
  if n <? 10 then chr (48 + n) else chr (87 + n).

Definition has_char (n : Z) (s : string) : bool :=
  existsb (fun c => byte_of c =? n) (list_ascii_of_string s).

(** The characters of a string literal between its quotes, [q] being the
    quote character in use.  Bytes above 127 stand for printable
    characters and are kept. *)
Fixpoint repr_chars (q : Z) (s : string) : string :=
  match s with
  | EmptyString => EmptyString
  | String c r =>
      let n := byte_of c in
      (if (n =? 92) || (n =? q) then String (chr 92) (String c EmptyString)
       else if n =? 10 then "\n"
       else if n =? 13 then "\r"
       else if n =? 9 then "\t"
       else if (n <? 32) || (n =? 127) then
         "\x" ++ String (hex_digit (n / 16)) (String (hex_digit (n mod 16)) "")
       else String c EmptyString)
      ++ repr_chars q r
  end.

(** [repr(s)] for a string: single quotes, unless the string has a single
    quote and no double quote *)
Definition repr_str (s : string) : string :=
  let q := if has_char 39 s && negb (has_char 34 s) then 34 else 39 in
  String (chr q) (repr_chars q s) ++ String (chr q) EmptyString.

(** [repr(v)] *)
Fixpoint repr (v : value) : string :=
  match v with
  | VNone => "None"
  | VBool true => "True"
  | VBool false => "False"
  | VInt n => str_of_int n
  | VFloat _ text => text
  | VStr s => repr_str s
  | VList l =>
      "[" ++ (fix items (l : list value) : string :=
                match l with
                | [] => ""
                | [x] => repr x
                | x :: l' => repr x ++ ", " ++ items l'
                end) l ++ "]"
  | VDict d =>
      "{" ++ (fix items (d : list (string * value)) : string :=
                match d with
                | [] => ""
                | [(k, x)] => repr_str k ++ ": " ++ repr x
                | (k, x) :: d' => repr_str k ++ ": " ++ repr x ++ ", " ++ items d'
                end) d ++ "}"
  end.

End Lib.

(** ** The warehouse, for running the handler against a table

    BigQuery is outside the repository; this is a model of the part of it
    that the handler's two templates can reach.  It has the table behind
    [TABLE_ID], with the columns of the MERGE statement, and the meaning
    of a MERGE of one source row and of a DELETE by [id], alone or in a
    script of several statements.  [execute] answers [None] on any other
    text: no meaning is given to it here. *)

Module Warehouse.

Record row : Type := Row {
  id : Z; first_name : string; last_name : string; email : string
}.

(** BigQuery enforces no primary key: a table is a bag of rows. *)
Definition table : Type := list row.

Inductive token : Type :=
| TWord (s : string)
| TInt (n : Z)
| TStr (s : string)
| TName (s : string)
| TSym (c : ascii).

Inductive lex_state : Type :=
| Idle
| InWord (acc : list ascii)
| InInt (n : Z)
| InStr (acc : list ascii)
| InName (acc : list ascii).

Definition is_letter (c : ascii) : bool :=
  Lib.in_range 65 90 c || Lib.in_range 97 122 c || (Lib.byte_of c =? 95).

Definition is_sym (c : ascii) : bool :=
  existsb (Ascii.eqb c) (list_ascii_of_string "(),.=;-").

Definition text_of (acc : list ascii) : string := string_of_list_ascii (rev acc).

(** Close the token in progress, if any. *)
Definition flush (st : lex_state) (out : list token) : option (list token) :=
  match st with
  | Idle => Some out
  | InWord acc => Some (TWord (text_of acc) :: out)
  | InInt n => Some (TInt n :: out)
  | InStr _ | InName _ => None
  end.

(** What a character starts when no token is in progress.  [next] is the
    character after it: two dashes open a comment. *)
Definition start_token (c : ascii) (next : option ascii) (out : list token)
  : option (lex_state * list token) :=
  let n := Lib.byte_of c in
  if Lib.is_ws c then Some (Idle, out)
  else if is_letter c then Some (InWord [c], out)
  else if Lib.is_digit c then Some (InInt (n - 48), out)
  else if n =? 39 then Some (InStr [], out)
  else if n =? 96 then Some (InName [], out)
  else if n =? 45 then
    match next with
    | Some c' => if Lib.byte_of c' =? 45 then None else Some (Idle, TSym c :: out)
    | None => Some (Idle, TSym c :: out)
    end
  else if is_sym c then Some (Idle, TSym c :: out)
  else None.

(** One character of the lexer; [out] is in reverse.  A string literal is
    a run of characters between single quotes with no quote, backslash or
    line break in it.  Comments, double quotes, operators other than [=]
    and [-], and numbers that are not plain decimal integers are not
    lexed. *)
Definition step (c : ascii) (next : option ascii) (st : lex_state)
  (out : list token) : option (lex_state * list token) :=
  let n := Lib.byte_of c in
  match st with
  | InStr acc =>
      if n =? 39 then Some (Idle, TStr (text_of acc) :: out)
      else if (n =? 92) || (n =? 10) || (n =? 13) then None
      else Some (InStr (c :: acc), out)
  | InName acc =>
      if n =? 96 then Some (Idle, TName (text_of acc) :: out)
      else if (n =? 92) || (n =? 10) || (n =? 13) then None
      else Some (InName (c :: acc), out)
  | InWord acc =>
      if is_letter c || Lib.is_digit c then Some (InWord (c :: acc), out)
      else start_token c next (TWord (text_of acc) :: out)
  | InInt m =>
      if Lib.is_digit c then
        if m =? 0 then None else Some (InInt (10 * m + (n - 48)), out)
      else if is_letter c then None
      else start_token c next (TInt m :: out)
  | Idle => start_token c next out
  end.

Definition head (s : string) : option ascii :=
  match s with
  | String c _ => Some c
  | EmptyString => None
  end.

Fixpoint lex (s : string) (st : lex_state) (out : list token)
  : option (list token) :=
  match s with
  | EmptyString =>
      match flush st out with Some o => Some (rev o) | None => None end
  | String c r =>
      match step c (head r) st out with
      | Some (st', out') => lex r st' out'
      | None => None
      end
  end.

(** The lexer on the first part [p] of a text whose next character is
    [next]: the state it is in after [p] *)
Fixpoint run (p : string) (next : option ascii) (st : lex_state)
  (out : list token) : option (lex_state * list token) :=
  match p with
  | EmptyString => Some (st, out)
  | String c r =>
      match step c (match head r with Some c' => Some c' | None => next end)
              st out with
      | Some (st', out') => run r next st' out'
      | None => None
      end
  end.

(** The tokens of an integer as [str] writes it, in reverse, before [out] *)
Definition int_tokens (n : Z) (out : list token) : list token :=
  if n <? 0 then TInt (- n) :: TSym "-" :: out else TInt n :: out.

(** A text that can stand between backquotes *)
Fixpoint plain_name (s : string) : bool :=
  match s with
  | EmptyString => true
  | String c r =>
      let n := Lib.byte_of c in
      negb ((n =? 96) || (n =? 92) || (n =? 10) || (n =? 13)) && plain_name r
  end.

(** A text that can stand between single quotes *)
Fixpoint plain (s : string) : bool :=
  match s with
  | EmptyString => true
  | String c r =>
      let n := Lib.byte_of c in
      negb ((n =? 39) || (n =? 92) || (n =? 10) || (n =? 13)) && plain r
  end.

Definition tokens (s : string) : option (list token) := lex s Idle [].

Definition token_eqb (a b : token) : bool :=
  match a, b with
  | TWord x, TWord y | TStr x, TStr y | TName x, TName y => String.eqb x y
  | TInt x, TInt y => x =? y
  | TSym x, TSym y => Ascii.eqb x y
  | _, _ => false
  end.

(** [ts] starts with the tokens of the text [p]: what follows them *)
Fixpoint skip (p ts : list token) : option (list token) :=
  match p, ts with
  | [], _ => Some ts
  | a :: p', b :: ts' => if token_eqb a b then skip p' ts' else None
  | _ :: _, [] => None
  end.

Definition lit (p : string) (ts : list token) : option (list token) :=
  match tokens p with Some pt => skip pt ts | None => None end.

(** An integer literal, with its sign *)
Definition int_lit (ts : list token) : option (Z * list token) :=
  match ts with
  | TInt n :: ts' => Some (n, ts')
  | TSym c :: TInt n :: ts' =>
      if Ascii.eqb c "-"%char then Some (- n, ts') else None
  | _ => None
  end.

Definition str_lit (ts : list token) : option (string * list token) :=
  match ts with TStr s :: ts' => Some (s, ts') | _ => None end.

(** The name of a table, between backquotes *)
Definition name_lit (ts : list token) : option (string * list token) :=
  match ts with TName t :: ts' => Some (t, ts') | _ => None end.

Inductive predicate : Type :=
| IdIs (n : Z)      (* [id = n] *)
| IdIsId            (* [id = id] *)
| OnFalse.          (* [FALSE] *)

Inductive statement : Type :=
| Merge (target : string) (source : row) (on : predicate) (update insert : bool)
| Delete (target : string) (where_ : predicate).

Definition opt_bind {A B} (o : option A) (k : A -> option B) : option B :=
  match o with Some a => k a | None => None end.
Notation "'do' x <- o ; k" := (opt_bind o (fun x => k))
  (at level 10, x name, o at level 100, k at level 200).
Notation "'do' ' p <- o ; k" := (opt_bind o (fun p => k))
  (at level 10, p strict pattern, o at level 100, k at level 200).

(** An optional clause: its tokens are skipped when they are there. *)
Definition optional (p : string) (ts : list token) : bool * list token :=
  match lit p ts with Some ts' => (true, ts') | None => (false, ts) end.

Definition parse_merge (ts : list token) : option statement :=
  do ts <- lit "MERGE" ts;
  do '(t, ts) <- name_lit ts;
  do ts <- lit "T USING ( SELECT" ts;
  do '(i, ts) <- int_lit ts;
  do ts <- lit "as id ," ts;
  do '(f, ts) <- str_lit ts;
  do ts <- lit "as first_name ," ts;
  do '(l, ts) <- str_lit ts;
  do ts <- lit "as last_name ," ts;
  do '(e, ts) <- str_lit ts;
  do ts <- lit "as email ) S ON" ts;
  do '(on, ts) <-
     match lit "T . id = S . id" ts with
     | Some ts' => Some (IdIs i, ts')
     | None => match lit "FALSE" ts with
               | Some ts' => Some (OnFalse, ts')
               | None => None
               end
     end;
  let '(upd, ts) :=
    optional "WHEN MATCHED THEN UPDATE SET first_name = S . first_name ,
              last_name = S . last_name , email = S . email" ts in
  let '(ins, ts) :=
    optional "WHEN NOT MATCHED THEN INSERT ( id , first_name , last_name , email )
              VALUES ( S . id , S . first_name , S . last_name , S . email )" ts in
  match ts with
  | [] => if upd || ins then Some (Merge t (Row i f l e) on upd ins) else None
  | _ :: _ => None
  end.

Definition parse_delete (ts : list token) : option statement :=
  do ts <- lit "DELETE FROM" ts;
  do '(t, ts) <- name_lit ts;
  do ts <- lit "WHERE id =" ts;
  match int_lit ts with
  | Some (n, []) => Some (Delete t (IdIs n))
  | Some _ => None
  | None => match lit "id" ts with
            | Some [] => Some (Delete t IdIsId)
            | _ => None
            end
  end.

Definition parse_statement (ts : list token) : option statement :=
  match parse_merge ts with
  | Some st => Some st
  | None => parse_delete ts
  end.

(** The statements of a script, between semicolons; [cur] is the
    statement being read, in reverse. *)
Fixpoint split_script (ts cur : list token) : list (list token) :=
  match ts with
  | [] => match cur with [] => [] | _ => [rev cur] end
  | t :: ts' =>
      if token_eqb t (TSym ";"%char) then rev cur :: split_script ts' []
      else split_script ts' (t :: cur)
  end.

Fixpoint parse_all (l : list (list token)) : option (list statement) :=
  match l with
  | [] => Some []
  | ts :: l' =>
      do st <- parse_statement ts;
      do sts <- parse_all l';
      Some (st :: sts)
  end.

Definition parse_script (query : string) : option (list statement) :=
  do ts <- tokens query;
  match split_script ts [] with
  | [] => None
  | l => parse_all l
  end.

Definition target_of (st : statement) : string :=
  match st with
  | Merge t _ _ _ _ => t
  | Delete t _ => t
  end.

Definition holds (p : predicate) (r : row) : bool :=
  match p with
  | IdIs n => id r =? n
  | IdIsId => true
  | OnFalse => false
  end.

(** MERGE with one source row: the target rows the condition selects are
    overwritten when there is an update clause; the source row is added
    when no target row is selected and there is an insert clause.
    DELETE removes the rows its condition selects. *)
Definition run_statement (st : statement) (t : table) : table :=
  match st with
  | Merge _ src on upd ins =>
      if existsb (holds on) t then
        if upd then
          map (fun r => if holds on r
                        then Row (id r) (first_name src) (last_name src) (email src)
                        else r) t
        else t
      else if ins then (t ++ [src])%list else t
  | Delete _ p => filter (fun r => negb (holds p r)) t
  end.

(** The script [query] on the warehouse that holds the one table [tbl]:
    every statement must be about that table. *)
Definition execute (tbl query : string) (t : table) : option table :=
  do sts <- parse_script query;
  if forallb (fun st => String.eqb (target_of st) tbl) sts
  then Some (fold_left (fun t st => run_statement st t) sts t)
  else None.

(** The client over this warehouse.  A text [execute] gives no meaning to
    is answered by an error that leaves the table as it is. *)
Definition client (tbl query : string) (t : table) : outcome unit * table :=
  match execute tbl query t with
  | Some t' => (Ok tt, t')
  | None => (Raise (OtherError "statement outside the model"), t)
  end.

(** What the specification asks of the two operations: an upsert
    overwrites the columns of the rows that have the key and inserts the
    row when there is none; a delete removes the rows that have the key. *)
Definition upsert (r : row) (t : table) : table :=
  if existsb (fun x => id x =? id r) t
  then map (fun x => if id x =? id r then r else x) t
  else (t ++ [r])%list.

Definition delete (key : Z) (t : table) : table :=
  filter (fun x => negb (id x =? key)) t.

End Warehouse.

(** ** A deployment to run examples on *)

(** The module in a project (or with no [PROJECT_ID] set) when
    [bigquery.Client()] raised at import time, with the libraries of
    [Lib] *)
Definition without_client (project : option string) : runtime Warehouse.table :=
  Runtime project None Lib.b64decode Lib.decode_utf8 Lib.json_loads Lib.repr.

(** The module with a client that was created, over the warehouse of
    [Warehouse] holding the table [TABLE_ID] *)
Definition deployment (project : option string) : runtime Warehouse.table :=
  Runtime project
          (Some (Warehouse.client (TABLE_ID (without_client project))))
          Lib.b64decode Lib.decode_utf8 Lib.json_loads Lib.repr.

(** The project [p] *)
Definition deployed : runtime Warehouse.table := deployment (Some "p").

Definition unconfigured : runtime Warehouse.table := without_client (Some "p").

(** A push request whose body is [{"message": {"data": data}}] *)
Definition push (data : string) : request :=
  Request (Ok (VDict [("message", VDict [("data", VStr data)])])).

(** A request whose body is the JSON array with the one element
    ["message"] *)
Definition array_body : request := Request (Ok (VList [VStr "message"])).

(** The text that the data of a message decodes to *)
Definition decoded_text (data : string) : string :=
  match Lib.b64decode (VStr data) with
  | Ok raw => raw
  | Raise _ => EmptyString
  end.

Definition start (t : Warehouse.table) : world Warehouse.table := World t [].

(** A warehouse that answers the next calls from a list, whatever the
    query, and succeeds once the list is used up *)
Definition scripted_client (query : string) (answers : list (outcome unit))
  : outcome unit * list (outcome unit) :=
  match answers with
  | [] => (Ok tt, [])
  | a :: rest => (a, rest)
  end.

Definition scripted : runtime (list (outcome unit)) :=
  Runtime (Some "p") (Some scripted_client)
          Lib.b64decode Lib.decode_utf8 Lib.json_loads Lib.repr.

(** The messages of the examples, as the [data] field carries them *)

(** [{"payload":{"op":"c","after":{"id":1,"first_name":"A","last_name":"B","email":"a@b.com"}}}] *)
Definition msg_create : string :=
  "eyJwYXlsb2FkIjp7Im9wIjoiYyIsImFmdGVyIjp7ImlkIjoxLCJmaXJzdF9uYW1lIjoiQSIsImxhc3RfbmFtZSI6IkIiLCJlbWFpbCI6ImFAYi5jb20ifX19".

(** [{"payload":{"op":"u","after":{"id":1,"first_name":"A","last_name":"B","email":"new@b.com"}}}] *)
Definition msg_update : string :=
  "eyJwYXlsb2FkIjp7Im9wIjoidSIsImFmdGVyIjp7ImlkIjoxLCJmaXJzdF9uYW1lIjoiQSIsImxhc3RfbmFtZSI6IkIiLCJlbWFpbCI6Im5ld0BiLmNvbSJ9fX0=".

(** [{"payload":{"op":"d","before":{"id":1}}}] *)
Definition msg_delete : string :=
  "eyJwYXlsb2FkIjp7Im9wIjoiZCIsImJlZm9yZSI6eyJpZCI6MX19fQ==".

(** [{"payload":{"after":{"id":1,"first_name":"A","last_name":"B","email":"a@b.com"}}}] *)
Definition msg_no_op : string :=
  "eyJwYXlsb2FkIjp7ImFmdGVyIjp7ImlkIjoxLCJmaXJzdF9uYW1lIjoiQSIsImxhc3RfbmFtZSI6IkIiLCJlbWFpbCI6ImFAYi5jb20ifX19".

(** [{"hello":"world"}] *)
Definition msg_hello : string := "eyJoZWxsbyI6IndvcmxkIn0=".

(** [5] *)
Definition msg_five : string := "NQ==".

(** [{"payload":{"op":"d","before":{"id":"id"}}}] *)
Definition msg_delete_id : string :=
  "eyJwYXlsb2FkIjp7Im9wIjoiZCIsImJlZm9yZSI6eyJpZCI6ImlkIn19fQ==".

(** A create event for the row [1, A, B] whose [email] is the text
    [x' as email) S ON FALSE WHEN NOT MATCHED THEN INSERT (id, first_name,
    last_name, email) VALUES (S.id, S.first_name, S.last_name, S.email);
    MERGE `p.my_bq_dataset.customers` T USING (SELECT 1 as id, 'A' as
    first_name, 'B' as last_name, 'x], on one line with single spaces *)
Definition msg_two_statements : string :=
  "eyJwYXlsb2FkIjp7Im9wIjoiYyIsImFmdGVyIjp7ImlkIjoxLCJmaXJzdF9uYW1lIjoiQSIsImxhc3RfbmFtZSI6IkIiLCJlbWFpbCI6IngnIGFzIGVtYWlsKSBTIE9OIEZBTFNFIFdIRU4gTk9UIE1BVENIRUQgVEhFTiBJTlNFUlQgKGlkLCBmaXJzdF9uYW1lLCBsYXN0X25hbWUsIGVtYWlsKSBWQUxVRVMgKFMuaWQsIFMuZmlyc3RfbmFtZSwgUy5sYXN0X25hbWUsIFMuZW1haWwpOyBNRVJHRSBgcC5teV9icV9kYXRhc2V0LmN1c3RvbWVyc2AgVCBVU0lORyAoU0VMRUNUIDEgYXMgaWQsICdBJyBhcyBmaXJzdF9uYW1lLCAnQicgYXMgbGFzdF9uYW1lLCAneCJ9fX0=".

(** ** The notions the properties are stated with *)

(** The status code the transport receives: the one returned, the one of
    an HTTP abort, or 500 when another exception leaves the view. *)
Definition status (o : outcome response) : Z :=
  match o with
  | Ok (_, s) => s
  | Raise (HTTPException code) => code
  | Raise _ => 500
  end.

(** The status codes a push subscription takes as an acknowledgement *)
Definition acknowledged (o : outcome response) : bool :=
  existsb (Z.eqb (status o)) [102; 200; 201; 202; 204].

(** The queries among the events, oldest first *)
Definition queries (tr : list event) : list string :=
  flat_map (fun e => match e with Queried q => [q] | Printed _ => [] end) tr.

(** A request is delivered when its body is an envelope that passes the
    test for a message and whose data decodes to the text [text] and
    parses to the document [doc]. *)
Definition decode_message {W} (rt : runtime W) (req : request)
  : outcome (string * value) :=
  match get_json req with
  | Raise e => Raise e
  | Ok envelope =>
      match no_message envelope with
      | Ok false =>
          match getitem envelope "message" with
          | Raise e => Raise e
          | Ok message =>
              match getitem message "data" with
              | Raise e => Raise e
              | Ok data64 =>
                  match b64decode rt data64 with
                  | Raise e => Raise e
                  | Ok raw =>
                      match decode_utf8 rt raw with
                      | Raise e => Raise e
                      | Ok text =>
                          match json_loads rt text with
                          | Raise e => Raise e
                          | Ok doc => Ok (text, doc)
                          end
                      end
                  end
              end
          end
      | Ok true => Raise (HTTPException 400)
      | Raise e => Raise e
      end
  end.

(** A document has a payload field when it is an object with that key. *)
Definition has_payload_field (doc : value) : bool :=
  match doc with
  | VDict d => has_key "payload" d
  | _ => false
  end.

(** An envelope is structurally valid when it is an object with a
    ["message"] key. *)
Definition structurally_valid (envelope : value) : bool :=
  match envelope with
  | VDict d => has_key "message" d
  | _ => false
  end.

(** A field is missing when it is absent or empty. *)
Definition missing (o : option value) : bool :=
  match o with
  | None => true
  | Some v => negb (truthy v)
  end.

(** The row data an operation requires: [before] for a delete, [after]
    for anything else *)
Definition required_row (payload : list (string * value)) : option value :=
  match lookup "op" payload with
  | Some op => if eq_str "d" op then lookup "before" payload
               else lookup "after" payload
  | None => lookup "after" payload
  end.

(** A payload with no [op] or without the row data of its operation *)
Definition incomplete (payload : list (string * value)) : bool :=
  missing (lookup "op" payload) || missing (required_row payload).

(** A computation adds events to the trace, at most [n] queries among
    them, and removes none. *)
Definition grows {W A} (n : nat) (m : M W A) : Prop :=
  forall w o w', m w = (o, w') ->
  exists evs, trace w' = (trace w ++ evs)%list /\ (length (queries evs) <= n)%nat.

(** The [email] of the event in [msg_two_statements] *)
Definition two_statement_email : string :=
  "x' as email) S ON FALSE WHEN NOT MATCHED THEN INSERT (id, first_name, last_name, email) VALUES (S.id, S.first_name, S.last_name, S.email); MERGE `p.my_bq_dataset.customers` T USING (SELECT 1 as id, 'A' as first_name, 'B' as last_name, 'x".

(** ** The course of a request, before anything is sent *)

(** The envelopes the test for a message cannot be made on: a number
    other than zero, and [True] *)
Definition unsearchable (envelope : value) : bool :=
  match envelope with
  | VBool b => b
  | VInt n => negb (n =? 0)
  | VFloat nonzero _ => nonzero
  | _ => false
  end.

(** The first five steps of the [try] block: from the envelope to the
    decoded text and the parsed document *)
Definition decode_envelope {W} (rt : runtime W) (envelope : value)
  : outcome (string * value) :=
  match getitem envelope "message" with
  | Raise e => Raise e
  | Ok message =>
      match getitem message "data" with
      | Raise e => Raise e
      | Ok data64 =>
          match b64decode rt data64 with
          | Raise e => Raise e
          | Ok raw =>
              match decode_utf8 rt raw with
              | Raise e => Raise e
              | Ok text =>
                  match json_loads rt text with
                  | Raise e => Raise e
                  | Ok doc => Ok (text, doc)
                  end
              end
          end
      end
  end.

(** What the [try] block decides to do with an envelope before it
    prints or sends anything *)
Inductive plan : Type :=
| Fail (e : exn)
| IgnoreNoPayload (pubsub_data : string)
| IgnoreIncomplete (payload : value)
| Apply (op data : value).

Definition plan_of {W} (rt : runtime W) (envelope : value) : plan :=
  match decode_envelope rt envelope with
  | Raise e => Fail e
  | Ok (text, doc) =>
      match contains "payload" doc with
      | Raise e => Fail e
      | Ok false => IgnoreNoPayload text
      | Ok true =>
          match getitem doc "payload" with
          | Raise e => Fail e
          | Ok payload =>
              match get payload "op" with
              | Raise e => Fail e
              | Ok op =>
                  match (if negb (eq_str "d" op) then get payload "after"
                         else get payload "before") with
                  | Raise e => Fail e
                  | Ok data =>
                      if negb (truthy data) || negb (truthy op)
                      then IgnoreIncomplete payload
                      else Apply op data
                  end
              end
          end
      end
  end.

(** The line an [except] clause prints for the exception [e] *)
Definition failure_line (envelope : value) (e : exn) : log_line :=
  if is_JSONDecodeError e then
    match getitem envelope "message" with
    | Ok message =>
        match getitem message "data" with
        | Ok data64 => LogJsonError data64
        | Raise _ => LogUnexpected e
        end
    | Raise _ => LogUnexpected e
    end
  else LogUnexpected e.

(** The four subscripts of [run_bq_merge], in the order of the template *)
Definition row_fields (data : value) : outcome (value * value * value * value) :=
  match getitem data "id" with
  | Raise e => Raise e
  | Ok id =>
      match getitem data "first_name" with
      | Raise e => Raise e
      | Ok first_name =>
          match getitem data "last_name" with
          | Raise e => Raise e
          | Ok last_name =>
              match getitem data "email" with
              | Raise e => Raise e
              | Ok email => Ok (id, first_name, last_name, email)
              end
          end
      end
  end.

(** The query an applied event sends, when its row can be read *)
Definition query_of {W} (rt : runtime W) (op data : value) : outcome string :=
  if eq_str "d" op then
    match getitem data "id" with
    | Ok pk_id => Ok (delete_query rt pk_id)
    | Raise e => Raise e
    end
  else
    match row_fields data with
    | Ok (id, first_name, last_name, email) =>
        Ok (merge_query rt id first_name last_name email)
    | Raise e => Raise e
    end.

(** Every query among the events comes right after the line that shows
    its text. *)
Fixpoint shown_first (evs : list event) : bool :=
  match evs with
  | [] => true
  | Printed (LogRunningQuery q) :: Queried q' :: rest =>
      String.eqb q q' && shown_first rest
  | Queried _ :: _ => false
  | Printed _ :: rest => shown_first rest
  end.

(** An object, as opposed to any other JSON value *)
Definition is_object (v : value) : bool :=
  match v with VDict _ => true | _ => false end.

(** Further messages, as the [data] field carries them *)

(** [{"payload":{"op":"r","after":{"id":1,"first_name":"A","last_name":"B","email":"a@b.com"}}}] *)
Definition msg_read : string :=
  "eyJwYXlsb2FkIjp7Im9wIjoiciIsImFmdGVyIjp7ImlkIjoxLCJmaXJzdF9uYW1lIjoiQSIsImxhc3RfbmFtZSI6IkIiLCJlbWFpbCI6ImFAYi5jb20ifX19".

(** [{"payload":{"op":"d","before":{"id":7},"after":{"id":9,"first_name":"A","last_name":"B","email":"a@b.com"}}}] *)
Definition msg_delete_both : string :=
  "eyJwYXlsb2FkIjp7Im9wIjoiZCIsImJlZm9yZSI6eyJpZCI6N30sImFmdGVyIjp7ImlkIjo5LCJmaXJzdF9uYW1lIjoiQSIsImxhc3RfbmFtZSI6IkIiLCJlbWFpbCI6ImFAYi5jb20ifX19".

(** [{"payload":{"op":"c","after":{"id":1,"first_name":"A"}}}] *)
Definition msg_short_row : string :=
  "eyJwYXlsb2FkIjp7Im9wIjoiYyIsImFmdGVyIjp7ImlkIjoxLCJmaXJzdF9uYW1lIjoiQSJ9fX0=".

(** [{"payload":null}] *)
Definition msg_null_payload : string := "eyJwYXlsb2FkIjpudWxsfQ==".

(** The text [not json] *)
Definition msg_not_json : string := "bm90IGpzb24=".

(** ** The events of a request *)

Section Growth.
Context {W : Type}.

Lemma grows_ret {A} (a : A) : grows (W:=W) 0 (ret a).
Proof.
  intros w o w' H. injection H as <- <-. exists []. now rewrite List.app_nil_r.
Qed.

Lemma grows_lift {A} (o : outcome A) : grows (W:=W) 0 (lift o).
Proof.
  intros w o' w' H. injection H as <- <-. exists []. now rewrite List.app_nil_r.
Qed.

Lemma grows_print l : grows (W:=W) 0 (print l).
Proof.
  intros w o w' H. injection H as <- <-. now exists [Printed l].
Qed.

Lemma grows_run_query c q : grows (W:=W) 1 (run_query c q).
Proof.
  intros w o w' H. unfold run_query in H.
  destruct (c q (warehouse w)) as [r wh]. injection H as <- <-.
  now exists [Queried q].
Qed.

Lemma queries_app a b : queries (a ++ b) = (queries a ++ queries b)%list.
Proof. unfold queries. now rewrite flat_map_app. Qed.

Lemma grows_bind {A B} n k (m : M W A) (f : A -> M W B) :
  grows n m -> (forall a, grows k (f a)) -> grows (n + k) (bind m f).
Proof.
  intros Hm Hf w o w' H. unfold bind in H.
  destruct (m w) as [[a|e] w1] eqn:E.
  - destruct (Hm _ _ _ E) as (e1 & T1 & L1).
    destruct (Hf a _ _ _ H) as (e2 & T2 & L2).
    exists (e1 ++ e2)%list. split.
    + now rewrite T2, T1, List.app_assoc.
    + rewrite queries_app, List.length_app. lia.
  - injection H as <- <-. destruct (Hm _ _ _ E) as (e1 & T1 & L1).
    exists e1. split; [assumption | lia].
Qed.

Lemma grows_le {A} n k (m : M W A) : (n <= k)%nat -> grows n m -> grows k m.
Proof.
  intros L H w o w' E. destruct (H _ _ _ E) as (evs & T & Q).
  exists evs. split; [assumption | lia].
Qed.

Variable rt : runtime W.

Lemma grows_run_bq_delete c data : grows 1 (run_bq_delete rt c data).
Proof.
  unfold run_bq_delete.
  apply (grows_bind 0 1); [apply grows_lift | intros pk].
  apply (grows_bind 0 1); [apply grows_print | intros _].
  apply (grows_bind 1 0); [apply grows_run_query | intros _].
  apply grows_print.
Qed.

Lemma grows_run_bq_merge c data : grows 1 (run_bq_merge rt c data).
Proof.
  unfold run_bq_merge.
  do 4 (apply (grows_bind 0 1); [apply grows_lift | intros ?]).
  apply (grows_bind 0 1); [apply grows_print | intros _].
  apply (grows_bind 1 0); [apply grows_run_query | intros _].
  apply grows_print.
Qed.

Lemma grows_process c envelope : grows 1 (process rt c envelope).
Proof.
  unfold process.
  do 6 (apply (grows_bind 0 1); [apply grows_lift | intros ?]).
  destruct (negb _).
  - apply (grows_le 0); [lia|].
    apply (grows_bind 0 0); [apply grows_print | intros _; apply grows_ret].
  - do 3 (apply (grows_bind 0 1); [apply grows_lift | intros ?]).
    destruct (_ || _).
    + apply (grows_le 0); [lia|].
      apply (grows_bind 0 0); [apply grows_print | intros _; apply grows_ret].
    + apply (grows_bind 0 1); [apply grows_print | intros _].
      apply (grows_bind 1 0); [|intros _; apply grows_ret].
      destruct (eq_str _ _); [apply grows_run_bq_delete | apply grows_run_bq_merge].
Qed.

End Growth.

(** ** How a request ends *)

Section Handling.
Context {W : Type}.
Variable rt : runtime W.

Lemma decode_message_inv req text doc :
  decode_message rt req = Ok (text, doc) ->
  exists envelope message data64 raw,
    get_json req = Ok envelope /\ no_message envelope = Ok false /\
    getitem envelope "message" = Ok message /\
    getitem message "data" = Ok data64 /\
    b64decode rt data64 = Ok raw /\ decode_utf8 rt raw = Ok text /\
    json_loads rt text = Ok doc.
Proof.
  unfold decode_message. intros H.
  destruct (get_json req) as [envelope|]; [|discriminate].
  destruct (no_message envelope) as [[|]|] eqn:Hn; try discriminate.
  destruct (getitem envelope "message") as [message|] eqn:Hm; [|discriminate].
  destruct (getitem message "data") as [data64|] eqn:Hd; [|discriminate].
  destruct (b64decode rt data64) as [raw|] eqn:Hb; [|discriminate].
  destruct (decode_utf8 rt raw) as [t|] eqn:Hu; [|discriminate].
  destruct (json_loads rt t) as [d|] eqn:Hj; [|discriminate].
  injection H as -> ->. now exists envelope, message, data64, raw.
Qed.

(** A subscript never raises a JSON error. *)
Lemma getitem_raise v k e : getitem v k = Raise e -> is_JSONDecodeError e = false.
Proof.
  destruct v; cbn; try (intros H; injection H as <-; reflexivity).
  destruct (lookup k d); [discriminate|]. intros H. now injection H as <-.
Qed.

(** When the body of the [try] raises a JSON error, the data of the
    message had been read. *)
Lemma process_json_error c envelope w w' :
  process rt c envelope w = (Raise JSONDecodeError, w') ->
  exists message data64,
    getitem envelope "message" = Ok message /\ getitem message "data" = Ok data64.
Proof.
  unfold process, bind, lift. intros H.
  destruct (getitem envelope "message") as [message|e] eqn:Hm.
  - destruct (getitem message "data") as [data64|e] eqn:Hd.
    + now exists message, data64.
    + injection H as -> _. now apply getitem_raise in Hd.
  - injection H as -> _. now apply getitem_raise in Hm.
Qed.

(** A [return] inside the [try] is always the empty 204. *)
Lemma process_returns c envelope w r w' :
  process rt c envelope w = (Ok (Some r), w') -> r = ("", 204).
Proof.
  unfold process, run_bq_delete, run_bq_merge, run_query, bind, lift, print, emit, ret.
  intros H.
  repeat match type of H with
  | context [match ?x with _ => _ end] => destruct x eqn:?
  | context [if ?x then _ else _] => destruct x eqn:?
  end; try discriminate; try (injection H as <- _; reflexivity).
Qed.

(** The three ways a request that passed the envelope test can end *)
Lemma index_cases c req envelope w :
  bq_client rt = Some c -> get_json req = Ok envelope ->
  no_message envelope = Ok false ->
  match process rt c envelope w with
  | (Ok _, w') => index rt req w = (Ok ("", 204), w')
  | (Raise e, w') =>
      exists l, index rt req w
                = (Ok ("Message processing error", 200),
                   World (warehouse w') (trace w' ++ [Printed l]))
  end.
Proof.
  intros Hc Hj Hn.
  destruct (process rt c envelope w) as [[o|e] w'] eqn:Hp.
  - unfold index, try_except, bind, lift, ret. rewrite Hc, Hj, Hn, Hp.
    destruct o as [r|]; [|reflexivity].
    now rewrite (process_returns _ _ _ _ _ Hp).
  - unfold index, try_except, bind, lift, ret, print, emit.
    rewrite Hc, Hj, Hn, Hp.
    destruct (is_JSONDecodeError e) eqn:He.
    + destruct e; try discriminate.
      destruct (process_json_error _ _ _ _ Hp) as (m & d & -> & ->).
      now eexists.
    + now eexists.
Qed.

Lemma index_bad_request c req envelope w :
  bq_client rt = Some c -> get_json req = Ok envelope ->
  no_message envelope = Ok true ->
  index rt req w
  = (Ok ("Bad Request: No Pub/Sub message received", 400),
     World (warehouse w) (trace w ++ [Printed LogBadRequest])).
Proof.
  intros Hc Hj Hn. unfold index, bind, lift, ret, print, emit.
  now rewrite Hc, Hj, Hn.
Qed.

End Handling.

(** ** The client that could not be created *)

(** C10. When the BigQuery client is missing, every request, whatever its
    body, is answered [200] with the body "BigQuery client not
    initialized": the message is acknowledged, the only effect is one log
    line, and no query reaches the warehouse. *)
Theorem client_missing_acknowledged {W} (rt : runtime W) req w :
  bq_client rt = None ->
  index rt req w
  = (Ok ("BigQuery client not initialized", 200),
     World (warehouse w) (trace w ++ [Printed LogClientMissing]))
  /\ acknowledged (fst (index rt req w)) = true
  /\ queries (trace (snd (index rt req w))) = queries (trace w).
Proof.
  intros Hc.
  assert (E : index rt req w
              = (Ok ("BigQuery client not initialized", 200),
                 World (warehouse w) (trace w ++ [Printed LogClientMissing]))).
  { unfold index. rewrite Hc. reflexivity. }
  rewrite E. repeat split. cbn. rewrite queries_app. cbn. apply List.app_nil_r.
Qed.

Lemma client_missing_acknowledged_witness :
  index unconfigured (push msg_create) (start [])
  = (Ok ("BigQuery client not initialized", 200),
     World [] [Printed LogClientMissing])
  /\ acknowledged (fst (index unconfigured (push msg_create) (start []))) = true
  /\ queries (trace (snd (index unconfigured (push msg_create) (start [])))) = [].
Proof.
  apply (client_missing_acknowledged unconfigured (push msg_create) (start [])).
  reflexivity.
Defined.

(** ** Messages that are ignored *)



(** C9 at the failing input.  The message whose data is the JSON
    document [5] is delivered and decoded, and the document has no
    payload field; the test for the payload raises [TypeError] on a
    number, so the answer is the [200] of an unexpected error and not the
    [204] of a message that is ignored. *)
Theorem scalar_document_not_ignored :
  decode_message deployed (push msg_five) = Ok ("5", VInt 5)
  /\ has_payload_field (VInt 5) = false
  /\ index deployed (push msg_five) (start [])
     = (Ok ("Message processing error", 200),
        World [] [Printed (LogUnexpected TypeError)]).
Proof. repeat split. Qed.

(** The test of the handler on [op] and [data] succeeds on an incomplete
    payload. *)
Lemma incomplete_condition p :
  incomplete p = true ->
  forall op data,
    get (VDict p) "op" = Ok op ->
    (if negb (eq_str "d" op) then get (VDict p) "after"
     else get (VDict p) "before") = Ok data ->
    negb (truthy data) || negb (truthy op) = true.
Proof.
  unfold incomplete, required_row, missing. cbn [get]. intros Hi op data Hop Hdata.
  injection Hop as <-.
  destruct (lookup "op" p) as [op|]; [|apply orb_true_r].
  destruct (truthy op) eqn:Ht; [|apply orb_true_r].
  cbn [negb orb] in Hi.
  destruct (eq_str "d" op); cbn [negb] in Hdata; injection Hdata as <-;
    [destruct (lookup "before" p) | destruct (lookup "after" p)];
    cbn [truthy negb orb]; now rewrite ?Hi.
Qed.

(** C3, as the code has it.  A delivered event whose payload is an object
    with no [op], or without the row data of its operation ([before] for
    a delete, [after] otherwise), absent or empty, raises no error: one
    warning is logged, the answer is [204], the warehouse is left as it
    was, and nothing else is written anywhere. *)
Theorem incomplete_event_ignored {W} (rt : runtime W) c req text d p w :
  bq_client rt = Some c ->
  decode_message rt req = Ok (text, VDict d) ->
  lookup "payload" d = Some (VDict p) ->
  incomplete p = true ->
  index rt req w
  = (Ok ("", 204),
     World (warehouse w) (trace w ++ [Printed (LogNoOpOrData (VDict p))])).
Proof.
  intros Hc Hd Hp Hi.
  destruct (decode_message_inv _ _ _ _ Hd)
    as (envelope & message & data64 & raw & H1 & H2 & H3 & H4 & H5 & H6 & H7).
  unfold index, try_except, process, bind, lift, ret, print, emit.
  rewrite Hc, H1, H2, H3, H4, H5, H6, H7.
  cbn [contains getitem]. unfold has_key. rewrite Hp. cbn [negb].
  destruct (get (VDict p) "op") as [op|] eqn:Hop; [|discriminate].
  destruct (if negb (eq_str "d" op) then get (VDict p) "after"
            else get (VDict p) "before") as [data|] eqn:Hdata;
    [|destruct (eq_str "d" op); discriminate].
  now rewrite (incomplete_condition _ Hi _ _ Hop Hdata).
Qed.

Lemma incomplete_event_ignored_witness :
  index deployed (push msg_no_op) (start [Warehouse.Row 1 "x" "y" "z"])
  = (Ok ("", 204),
     World [Warehouse.Row 1 "x" "y" "z"]
       [Printed (LogNoOpOrData
          (VDict [("after", VDict [("id", VInt 1); ("first_name", VStr "A");
                                   ("last_name", VStr "B");
                                   ("email", VStr "a@b.com")])]))]).
Proof.
  apply (incomplete_event_ignored deployed
           (Warehouse.client "p.my_bq_dataset.customers") (push msg_no_op)
           (decoded_text msg_no_op)
           [("payload", VDict [("after", VDict [("id", VInt 1); ("first_name", VStr "A");
                                   ("last_name", VStr "B");
                                   ("email", VStr "a@b.com")])])]
           [("after", VDict [("id", VInt 1); ("first_name", VStr "A");
                                   ("last_name", VStr "B");
                                   ("email", VStr "a@b.com")])]
           (start [Warehouse.Row 1 "x" "y" "z"]));
    reflexivity.
Defined.

(** C3, as the specification states it, fails.  For the create event without [op]
    the handler raises nothing and answers [204]; all it sends out is one
    log line, so no record reaches a dead-letter sink. *)
Lemma incomplete_event_not_dead_lettered :
  exists text d p final,
    decode_message deployed (push msg_no_op) = Ok (text, VDict d)
    /\ lookup "payload" d = Some (VDict p)
    /\ lookup "op" p = None
    /\ index deployed (push msg_no_op) (start []) = (Ok ("", 204), final)
    /\ trace final = [Printed (LogNoOpOrData (VDict p))].
Proof. do 4 eexists. repeat split. Qed.

(** ** Errors *)

(** C4, as the code has it.  Whatever exception the processing of a
    request raises is caught: the handler logs it and answers [200] with
    the body "Message processing error", which acknowledges the message. *)
Theorem exception_acknowledged {W} (rt : runtime W) c req envelope e w w' :
  bq_client rt = Some c ->
  get_json req = Ok envelope ->
  no_message envelope = Ok false ->
  process rt c envelope w = (Raise e, w') ->
  fst (index rt req w) = Ok ("Message processing error", 200)
  /\ acknowledged (fst (index rt req w)) = true.
Proof.
  intros Hc Hj Hn Hp.
  pose proof (index_cases rt c req envelope w Hc Hj Hn) as H.
  rewrite Hp in H. destruct H as (l & ->). now split.
Qed.

Lemma exception_acknowledged_witness :
  fst (index scripted (push msg_create) (World [Raise (OtherError "RuntimeError")] []))
  = Ok ("Message processing error", 200)
  /\ acknowledged
       (fst (index scripted (push msg_create)
               (World [Raise (OtherError "RuntimeError")] []))) = true.
Proof.
  eapply (exception_acknowledged scripted scripted_client (push msg_create) _
            (OtherError "RuntimeError") (World [Raise (OtherError "RuntimeError")] []));
    reflexivity.
Defined.

(** C4, as the specification states it, fails.  The client raises a [RuntimeError],
    which is no decode, schema or warehouse failure; the processing of
    the create event raises it, and the handler answers [200]: the
    message is acknowledged and will not be delivered again. *)
Lemma internal_error_acknowledged :
  exists envelope w',
    get_json (push msg_create) = Ok envelope
    /\ process scripted scripted_client envelope
         (World [Raise (OtherError "RuntimeError")] [])
       = (Raise (OtherError "RuntimeError"), w')
    /\ fst (index scripted (push msg_create)
              (World [Raise (OtherError "RuntimeError")] []))
       = Ok ("Message processing error", 200)
    /\ acknowledged
         (fst (index scripted (push msg_create)
                 (World [Raise (OtherError "RuntimeError")] []))) = true.
Proof. do 2 eexists. repeat split. Qed.

(** C5, as the code has it.  A request sends the warehouse at most one
    query.  When the processing fails, with a retryable warehouse error
    or with any other, nothing follows the failure but one log line and
    the answer [200], which acknowledges the message: there is no second
    attempt. *)
Theorem single_attempt {W} (rt : runtime W) c req envelope e w w' :
  bq_client rt = Some c ->
  get_json req = Ok envelope ->
  no_message envelope = Ok false ->
  process rt c envelope w = (Raise e, w') ->
  (exists l, index rt req w
             = (Ok ("Message processing error", 200),
                World (warehouse w') (trace w' ++ [Printed l])))
  /\ (length (queries (trace (snd (index rt req w))))
      <= length (queries (trace w)) + 1)%nat.
Proof.
  intros Hc Hj Hn Hp.
  pose proof (index_cases rt c req envelope w Hc Hj Hn) as H.
  rewrite Hp in H. destruct H as (l & E). split; [now exists l|].
  rewrite E. cbn [snd trace].
  destruct (grows_process rt c envelope _ _ _ Hp) as (evs & -> & L).
  rewrite !queries_app, !List.length_app. cbn. lia.
Qed.

Lemma single_attempt_witness :
  (exists l, index scripted (push msg_create)
               (World [Raise (WarehouseError true); Ok tt] [])
             = (Ok ("Message processing error", 200),
                World [Ok tt]
                  ([Printed (LogProcessing (VStr "c")
                      (VDict [("id", VInt 1); ("first_name", VStr "A");
                              ("last_name", VStr "B"); ("email", VStr "a@b.com")]));
                    Printed (LogRunningQuery
                      (merge_query scripted (VInt 1) (VStr "A") (VStr "B") (VStr "a@b.com")));
                    Queried
                      (merge_query scripted (VInt 1) (VStr "A") (VStr "B") (VStr "a@b.com"))]
                   ++ [Printed l])))
  /\ (length (queries (trace (snd (index scripted (push msg_create)
                                     (World [Raise (WarehouseError true); Ok tt] [])))))
      <= length (queries (@nil event)) + 1)%nat.
Proof.
  eapply (single_attempt scripted scripted_client (push msg_create) _
            (WarehouseError true) (World [Raise (WarehouseError true); Ok tt] [])
            (World [Ok tt] _));
    reflexivity.
Defined.

(** C5, as the specification states it, fails.  The warehouse answers the first
    call with a retryable error and would answer the second with
    success.  The handler makes one call, answers [200] at once, and the
    second answer is never asked for. *)
Lemma transient_failure_not_retried :
  exists final,
    index scripted (push msg_create)
      (World [Raise (WarehouseError true); Ok tt] [])
    = (Ok ("Message processing error", 200), final)
    /\ warehouse final = [Ok tt]
    /\ length (queries (trace final)) = 1%nat
    /\ acknowledged (Ok ("Message processing error", 200)) = true.
Proof. eexists. repeat split. Qed.

(** ** The status of the answer *)

(** C2, as the code has it.  With the client in place and a body that
    [get_json] returned and the envelope test could examine: the answer
    is [400] exactly when the test finds no message; otherwise it is
    [204] exactly when the processing raised nothing (the event was
    applied or ignored) and [200], with the body "Message processing
    error", exactly when the processing raised an exception, of whatever
    kind.  Every answer but the [400] acknowledges the message. *)
Theorem status_by_outcome {W} (rt : runtime W) c req envelope bad w :
  bq_client rt = Some c ->
  get_json req = Ok envelope ->
  no_message envelope = Ok bad ->
  (status (fst (index rt req w)) = 400 <-> bad = true)
  /\ (status (fst (index rt req w)) = 204
      <-> bad = false /\ exists o w', process rt c envelope w = (Ok o, w'))
  /\ (status (fst (index rt req w)) = 200
      <-> bad = false /\ exists e w', process rt c envelope w = (Raise e, w'))
  /\ (status (fst (index rt req w)) = 200 ->
      fst (index rt req w) = Ok ("Message processing error", 200))
  /\ acknowledged (fst (index rt req w)) = negb bad.
Proof.
  intros Hc Hj Hn. destruct bad.
  - rewrite (index_bad_request rt c req envelope w Hc Hj Hn). cbn.
    repeat split; try discriminate; intros (? & _); discriminate.
  - pose proof (index_cases rt c req envelope w Hc Hj Hn) as H.
    destruct (process rt c envelope w) as [[o|e] w'] eqn:Hp.
    + rewrite H. cbn.
      repeat split; try discriminate; eauto.
      intros (_ & e & w2 & E). discriminate.
    + destruct H as (l & ->). cbn.
      repeat split; try discriminate; eauto.
      intros (_ & o & w2 & E). discriminate.
Qed.

Lemma status_by_outcome_witness :
  (status (fst (index deployed (push msg_create) (start []))) = 400 <-> false = true)
  /\ (status (fst (index deployed (push msg_create) (start []))) = 204
      <-> false = false
          /\ exists o w',
               process deployed (Warehouse.client "p.my_bq_dataset.customers")
                 (VDict [("message", VDict [("data", VStr msg_create)])]) (start [])
               = (Ok o, w'))
  /\ (status (fst (index deployed (push msg_create) (start []))) = 200
      <-> false = false
          /\ exists e w',
               process deployed (Warehouse.client "p.my_bq_dataset.customers")
                 (VDict [("message", VDict [("data", VStr msg_create)])]) (start [])
               = (Raise e, w'))
  /\ (status (fst (index deployed (push msg_create) (start []))) = 200 ->
      fst (index deployed (push msg_create) (start []))
      = Ok ("Message processing error", 200))
  /\ acknowledged (fst (index deployed (push msg_create) (start []))) = negb false.
Proof.
  apply (status_by_outcome deployed (Warehouse.client "p.my_bq_dataset.customers")
           (push msg_create)
           (VDict [("message", VDict [("data", VStr msg_create)])]) false (start []));
    reflexivity.
Defined.

(** C2, as the specification states it, fails.  The body [["message"]] is an array,
    not an envelope with a message key, and is answered [200], not [400].
    A [RuntimeError] of the client, after which the message ought to be
    delivered again, is answered [200] as well: a success status is not
    withheld. *)
Lemma status_claim_fails :
  get_json array_body = Ok (VList [VStr "message"])
  /\ structurally_valid (VList [VStr "message"]) = false
  /\ index deployed array_body (start [])
     = (Ok ("Message processing error", 200),
        World [] [Printed (LogUnexpected TypeError)])
  /\ fst (index scripted (push msg_create)
            (World [Raise (OtherError "RuntimeError")] []))
     = Ok ("Message processing error", 200).
Proof. repeat split. Qed.

(** ** The text of the queries *)

Lemma prefix_app k b : String.prefix k (k ++ b) = true.
Proof.
  induction k as [|c k IH]; cbn; [now destruct b|].
  destruct (Ascii.ascii_dec c c); [assumption | contradiction].
Qed.

Lemma is_substring_prefix k s : String.prefix k s = true -> is_substring k s = true.
Proof. intros H. destruct s; unfold is_substring; now rewrite H. Qed.

Lemma is_substring_head k b : is_substring k (k ++ b) = true.
Proof. apply is_substring_prefix, prefix_app. Qed.

Lemma is_substring_cons k c s :
  is_substring k (String c s)
  = if String.prefix k (String c s) then true else is_substring k s.
Proof. reflexivity. Qed.

Lemma is_substring_app_r k a s :
  is_substring k s = true -> is_substring k (a ++ s) = true.
Proof.
  intros H. induction a as [|c a IH]; [assumption|].
  change (String c a ++ s) with (String c (a ++ s)).
  rewrite is_substring_cons, IH. now destruct (String.prefix _ _).
Qed.

Ltac find_substring :=
  repeat first [apply is_substring_head | apply is_substring_app_r].

(** Whatever the fields of a row are, [str()] of each of them is in the
    text of the query as it is. *)
Lemma query_text_has_fields {W} (rt : runtime W) id fn ln em :
  is_substring (str rt id) (merge_query rt id fn ln em) = true
  /\ is_substring (str rt fn) (merge_query rt id fn ln em) = true
  /\ is_substring (str rt ln) (merge_query rt id fn ln em) = true
  /\ is_substring (str rt em) (merge_query rt id fn ln em) = true
  /\ is_substring (str rt id) (delete_query rt id) = true.
Proof. unfold merge_query, delete_query. repeat split; find_substring. Qed.

(** The upsert and the delete print the query and send it, once. *)
Lemma run_bq_merge_queries {W} (rt : runtime W) c data id fn ln em w :
  getitem data "id" = Ok id ->
  getitem data "first_name" = Ok fn ->
  getitem data "last_name" = Ok ln ->
  getitem data "email" = Ok em ->
  queries (trace (snd (run_bq_merge rt c data w)))
  = (queries (trace w) ++ [merge_query rt id fn ln em])%list.
Proof.
  intros Hi Hf Hl He.
  unfold run_bq_merge, run_query, bind, lift, print, emit, ret.
  rewrite Hi, Hf, Hl, He. cbn.
  destruct (c _ (warehouse w)) as [[[]|e] wh]; cbn;
    rewrite !queries_app; cbn; now rewrite ?List.app_nil_r.
Qed.

Lemma run_bq_delete_queries {W} (rt : runtime W) c data id w :
  getitem data "id" = Ok id ->
  queries (trace (snd (run_bq_delete rt c data w)))
  = (queries (trace w) ++ [delete_query rt id])%list.
Proof.
  intros Hi.
  unfold run_bq_delete, run_query, bind, lift, print, emit, ret.
  rewrite Hi. cbn.
  destruct (c _ (warehouse w)) as [[[]|e] wh]; cbn;
    rewrite !queries_app; cbn; now rewrite ?List.app_nil_r.
Qed.

(** ** The statements the warehouse is sent

    For a row with an integer key and plain texts, and for a delete by an
    integer key, the text of the query is the statement of the template:
    the lexer reads the row's values back as literals. *)

Module WarehouseFacts.
Import Warehouse.

Lemma append_nil_r s : s ++ "" = s.
Proof. induction s; cbn; congruence. Qed.

Lemma append_assoc a b c : (a ++ b) ++ c = a ++ (b ++ c).
Proof. induction a; cbn; congruence. Qed.

Lemma string_of_list_ascii_app l1 l2 :
  string_of_list_ascii (l1 ++ l2)
  = string_of_list_ascii l1 ++ string_of_list_ascii l2.
Proof. induction l1; cbn; congruence. Qed.

(** The lexer can be run on a text part by part. *)
Lemma lex_app p : forall rest st out,
  lex (p ++ rest) st out
  = match run p (head rest) st out with
    | Some (st', out') => lex rest st' out'
    | None => None
    end.
Proof.
  induction p as [|c p IH]; intros rest st out; [reflexivity|].
  cbn [append lex run].
  replace (head (p ++ rest))
    with (match head p with Some c' => Some c' | None => head rest end)
    by now destruct p.
  destruct (step c _ st out) as [[st' out']|]; [apply IH | reflexivity].
Qed.

Lemma lex_part p st out st' out' rest :
  (forall next, run p next st out = Some (st', out')) ->
  lex (p ++ rest) st out = lex rest st' out'.
Proof. intros H. now rewrite lex_app, H. Qed.

Lemma lex_last p st out st' out' :
  run p None st out = Some (st', out') ->
  lex p st out = match flush st' out' with Some o => Some (rev o) | None => None end.
Proof.
  intros H. rewrite <- (append_nil_r p) at 1. rewrite lex_app. cbn [head].
  now rewrite H.
Qed.

(** Facts on the classes of a character, by cases on the comparisons *)
Ltac by_bytes :=
  unfold Lib.is_digit, Lib.is_ws, is_letter, Lib.in_range;
  match goal with |- context [Lib.byte_of ?c] => generalize (Lib.byte_of c) end;
  intro;
  repeat match goal with
  | |- context [?a <=? ?b] => destruct (Z.leb_spec a b)
  | |- context [?a =? ?b] => destruct (Z.eqb_spec a b)
  end; cbn; intros; try reflexivity; try discriminate; lia.

Lemma lex_digit c r m out :
  Lib.is_digit c = true -> m <> 0 ->
  lex (String c r) (InInt m) out = lex r (InInt (10 * m + (Lib.byte_of c - 48))) out.
Proof.
  intros Hd Hm. cbn [lex step]. rewrite Hd.
  destruct (m =? 0) eqn:E; [apply Z.eqb_eq in E; contradiction | reflexivity].
Qed.

(** The digits of a number, read on from [acc] *)
Lemma lex_uint d : forall acc rest out,
  lex (NilEmpty.string_of_uint d ++ rest) (InInt (Zpos acc)) out
  = lex rest (InInt (Zpos (Pos.of_uint_acc d acc))) out.
Proof.
  induction d; intros acc rest out; try reflexivity;
    cbn [NilEmpty.string_of_uint append Pos.of_uint_acc];
    rewrite lex_digit by (reflexivity || discriminate);
    rewrite <- IHd; do 2 f_equal;
    match goal with
    | |- context [Lib.byte_of ?c] =>
        let v := eval vm_compute in (Lib.byte_of c) in
        change (Lib.byte_of c) with v
    end; lia.
Qed.

Lemma to_uint_no_leading_zero p l : Pos.to_uint p <> Decimal.D0 l.
Proof.
  intros E.
  pose proof (Unsigned.to_of (Pos.to_uint p)) as Hu.
  rewrite Unsigned.of_to in Hu. cbn [N.to_uint] in Hu.
  rewrite E, unorm_D0 in Hu. unfold Decimal.unorm in Hu.
  destruct (Decimal.nzhead l) eqn:En;
    try (apply (nzhead_nonzero l l); rewrite En; exact (eq_sym Hu)).
  injection Hu as Hl. apply (Unsigned.to_uint_nonzero p).
  rewrite E, <- Hl. reflexivity.
Qed.

Lemma lex_first_digit c r out :
  Lib.is_digit c = true ->
  lex (String c r) Idle out = lex r (InInt (Lib.byte_of c - 48)) out.
Proof.
  intros Hd. cbn [lex step]. unfold start_token.
  assert (Hw : Lib.is_ws c = false) by (revert Hd; by_bytes).
  assert (Hl : is_letter c = false) by (revert Hd; by_bytes).
  now rewrite Hw, Hl, Hd.
Qed.

Ltac first_digit k :=
  cbn [NilZero.string_of_uint NilEmpty.string_of_uint append];
  rewrite lex_first_digit by reflexivity;
  match goal with
  | |- context [Lib.byte_of ?c - 48] => change (Lib.byte_of c - 48) with k
  end;
  rewrite lex_uint.

Lemma lex_positive p rest out :
  lex (NilZero.string_of_uint (Pos.to_uint p) ++ rest) Idle out
  = lex rest (InInt (Zpos p)) out.
Proof.
  pose proof (Unsigned.of_to p) as Ho.
  destruct (Pos.to_uint p) as [|l|l|l|l|l|l|l|l|l|l] eqn:E;
    [now destruct (Unsigned.to_uint_nonnil p)
    |now destruct (to_uint_no_leading_zero p l)
    |first_digit 1|first_digit 2|first_digit 3|first_digit 4|first_digit 5
    |first_digit 6|first_digit 7|first_digit 8|first_digit 9];
    cbn [Pos.of_uint] in Ho; now injection Ho as ->.
Qed.

Lemma lex_int_end m c rest out :
  Lib.is_ws c = true ->
  lex (String c rest) (InInt m) out = lex rest Idle (TInt m :: out).
Proof.
  intros Hw. cbn [lex step]. unfold start_token.
  assert (Hd : Lib.is_digit c = false) by (revert Hw; by_bytes).
  assert (Hl : is_letter c = false) by (revert Hw; by_bytes).
  now rewrite Hd, Hl, Hw.
Qed.

Lemma uint_text_head p :
  exists c s, NilZero.string_of_uint (Pos.to_uint p) = String c s
              /\ Lib.is_digit c = true.
Proof.
  destruct (Pos.to_uint p) eqn:E;
    [now destruct (Unsigned.to_uint_nonnil p) | ..];
    cbn [NilZero.string_of_uint NilEmpty.string_of_uint];
    eexists; eexists; split; reflexivity.
Qed.

(** [str] of an integer, followed by white space, is read back as that
    integer. *)
Lemma lex_int n c rest out :
  Lib.is_ws c = true ->
  lex (str_of_int n ++ String c rest) Idle out = lex rest Idle (int_tokens n out).
Proof.
  intros Hw. unfold str_of_int, int_tokens.
  destruct n as [|p|p]; cbn [Z.to_int Z.ltb Z.compare].
  - change (NilZero.string_of_int (Decimal.Pos Decimal.zero)) with "0". cbn [append].
    rewrite lex_first_digit by reflexivity. now rewrite lex_int_end.
  - cbn [NilZero.string_of_int]. rewrite lex_positive. now rewrite lex_int_end.
  - cbn [NilZero.string_of_int append].
    destruct (uint_text_head p) as (d & s & E & Hd).
    assert (L : forall r, lex (String "-" (String d r)) Idle out
                          = lex (String d r) Idle (TSym "-" :: out)).
    { intros r.
      assert (H45 : (Lib.byte_of d =? 45) = false) by (revert Hd; by_bytes).
      assert (S : step "-" (Some d) Idle out = Some (Idle, TSym "-" :: out)).
      { unfold step, start_token. rewrite H45. reflexivity. }
      cbn [lex head]. now rewrite S. }
    pose proof (lex_positive p (String c rest) (TSym "-" :: out)) as P.
    rewrite E in *. cbn [append] in *. rewrite L, P. now rewrite lex_int_end.
Qed.

(** A plain text between single quotes is read back as that text. *)
Lemma lex_in_string s : forall acc rest out,
  plain s = true ->
  lex (s ++ String "'" rest) (InStr acc) out
  = lex rest Idle (TStr (string_of_list_ascii (rev acc) ++ s) :: out).
Proof.
  induction s as [|c s IH]; intros acc rest out Hp.
  - cbn. unfold text_of. now rewrite append_nil_r.
  - cbn [plain] in Hp. apply andb_true_iff in Hp as [Hc Hs].
    cbn [append lex step].
    destruct (Lib.byte_of c =? 39); [discriminate|].
    destruct (_ || _ || _) eqn:Hb.
    { cbn in Hc. destruct (Lib.byte_of c =? 92), (Lib.byte_of c =? 10),
        (Lib.byte_of c =? 13); discriminate. }
    rewrite IH by assumption. do 2 f_equal. cbn [rev].
    rewrite string_of_list_ascii_app. cbn. now rewrite append_assoc.
Qed.

Lemma lex_in_name s : forall acc rest out,
  plain_name s = true ->
  lex (s ++ String "`" rest) (InName acc) out
  = lex rest Idle (TName (string_of_list_ascii (rev acc) ++ s) :: out).
Proof.
  induction s as [|c s IH]; intros acc rest out Hp.
  - cbn. unfold text_of. now rewrite append_nil_r.
  - cbn [plain_name] in Hp. apply andb_true_iff in Hp as [Hc Hs].
    cbn [append lex step].
    destruct (Lib.byte_of c =? 96); [discriminate|].
    destruct (_ || _ || _) eqn:Hb.
    { cbn in Hc. destruct (Lib.byte_of c =? 92), (Lib.byte_of c =? 10),
        (Lib.byte_of c =? 13); discriminate. }
    rewrite IH by assumption. do 2 f_equal. cbn [rev].
    rewrite string_of_list_ascii_app. cbn. now rewrite append_assoc.
Qed.

Section Texts.

Context {W : Type}.
Variable rt : runtime W.
Hypothesis name_ok : plain_name (TABLE_ID rt) = true.

Lemma parse_script_delete n :
  parse_script (delete_query rt (VInt n)) = Some [Delete (TABLE_ID rt) (IdIs n)].
Proof.
  unfold parse_script, tokens.
  change (delete_query rt (VInt n))
    with ((nl ++ "        DELETE FROM `")
          ++ TABLE_ID rt
          ++ String "`" ((nl ++ "        WHERE id = ")
                         ++ str_of_int n ++ String "010" "    ")).
  erewrite lex_part by (intros next; vm_compute; reflexivity).
  rewrite lex_in_name by assumption.
  change (string_of_list_ascii (rev []) ++ TABLE_ID rt) with (TABLE_ID rt).
  generalize (TABLE_ID rt). intros tbl.
  erewrite lex_part by (intros next; vm_compute; reflexivity).
  rewrite lex_int by reflexivity.
  unfold int_tokens. destruct (n <? 0).
  - transitivity (Some [Delete tbl (IdIs (- - n))]); [vm_compute; reflexivity|].
    now rewrite Z.opp_involutive.
  - vm_compute; reflexivity.
Qed.

Lemma parse_script_merge n f l e :
  plain f = true -> plain l = true -> plain e = true ->
  parse_script (merge_query rt (VInt n) (VStr f) (VStr l) (VStr e))
  = Some [Merge (TABLE_ID rt) (Row n f l e) (IdIs n) true true].
Proof.
  intros Hf Hl He. unfold parse_script, tokens.
  change (merge_query rt (VInt n) (VStr f) (VStr l) (VStr e))
    with ((nl ++ "        MERGE `")
          ++ TABLE_ID rt
          ++ String "`"
             ((" T" ++ nl ++ "        USING (SELECT" ++ nl ++ "            ")
              ++ str_of_int n ++ String " "
             (("as id," ++ nl ++ "            '")
              ++ f ++ String "'"
                 ((" as first_name," ++ nl ++ "            '")
                  ++ l ++ String "'"
                     ((" as last_name," ++ nl ++ "            '")
                      ++ e ++ String "'"
   (" as email" ++ nl ++
    "        ) S" ++ nl ++
    "        ON T.id = S.id" ++ nl ++
    "        WHEN MATCHED THEN" ++ nl ++
    "            UPDATE SET" ++ nl ++
    "                first_name = S.first_name," ++ nl ++
    "                last_name = S.last_name," ++ nl ++
    "                email = S.email" ++ nl ++
    "        WHEN NOT MATCHED THEN" ++ nl ++
    "            INSERT (id, first_name, last_name, email)" ++ nl ++
    "            VALUES (S.id, S.first_name, S.last_name, S.email)" ++ nl ++
    "    ")))))).
  erewrite lex_part by (intros next; vm_compute; reflexivity).
  rewrite lex_in_name by assumption.
  change (string_of_list_ascii (rev []) ++ TABLE_ID rt) with (TABLE_ID rt).
  generalize (TABLE_ID rt). intros tbl.
  erewrite lex_part by (intros next; vm_compute; reflexivity).
  rewrite lex_int by reflexivity.
  remember (int_tokens n _) as o1 eqn:Eo1.
  erewrite lex_part by (intros next; vm_compute; reflexivity).
  rewrite lex_in_string by assumption.
  change (string_of_list_ascii (rev []) ++ f) with f.
  erewrite lex_part by (intros next; vm_compute; reflexivity).
  rewrite lex_in_string by assumption.
  change (string_of_list_ascii (rev []) ++ l) with l.
  erewrite lex_part by (intros next; vm_compute; reflexivity).
  rewrite lex_in_string by assumption.
  change (string_of_list_ascii (rev []) ++ e) with e.
  erewrite lex_last by (vm_compute; reflexivity).
  cbn [flush]. subst o1. unfold int_tokens.
  destruct (n <? 0).
  - transitivity (Some [Merge tbl (Row (- - n) f l e) (IdIs (- - n)) true true]);
      [vm_compute; reflexivity|].
    now rewrite Z.opp_involutive.
  - vm_compute; reflexivity.
Qed.

End Texts.

(** The MERGE of the template is the upsert of the specification, its
    DELETE the delete. *)
Lemma merge_is_upsert tbl r t :
  run_statement (Merge tbl r (IdIs (id r)) true true) t = upsert r t.
Proof.
  unfold run_statement, upsert, holds.
  destruct (existsb _ t); [|reflexivity].
  apply map_ext. intros x. destruct (id x =? id r) eqn:E; [|reflexivity].
  apply Z.eqb_eq in E. rewrite E. now destruct r.
Qed.

Lemma execute_merge {W} (rt : runtime W) n f l e t :
  plain_name (TABLE_ID rt) = true ->
  plain f = true -> plain l = true -> plain e = true ->
  execute (TABLE_ID rt) (merge_query rt (VInt n) (VStr f) (VStr l) (VStr e)) t
  = Some (upsert (Row n f l e) t).
Proof.
  intros Hn Hf Hl He. unfold execute.
  rewrite parse_script_merge by assumption.
  cbn [opt_bind forallb target_of fold_left]. rewrite String.eqb_refl.
  cbn [andb]. f_equal. apply (merge_is_upsert _ (Row n f l e)).
Qed.

Lemma execute_delete {W} (rt : runtime W) n t :
  plain_name (TABLE_ID rt) = true ->
  execute (TABLE_ID rt) (delete_query rt (VInt n)) t = Some (delete n t).
Proof.
  intros Hn. unfold execute. rewrite parse_script_delete by assumption.
  cbn [opt_bind forallb target_of fold_left]. now rewrite String.eqb_refl.
Qed.

Lemma upsert_idempotent r t : upsert r (upsert r t) = upsert r t.
Proof.
  unfold upsert.
  destruct (existsb (fun x => id x =? id r) t) eqn:E.
  - assert (E' : existsb (fun x => id x =? id r)
                   (map (fun x => if id x =? id r then r else x) t) = true).
    { apply existsb_exists in E as (x & Hin & Hx).
      apply existsb_exists. exists (if id x =? id r then r else x). split.
      - exact (in_map (fun x => if id x =? id r then r else x) t x Hin).
      - rewrite Hx. apply Z.eqb_refl. }
    rewrite E', map_map. apply map_ext. intros x.
    destruct (id x =? id r) eqn:Hx; [now rewrite Z.eqb_refl | now rewrite Hx].
  - rewrite existsb_app, E. cbn. rewrite Z.eqb_refl. cbn.
    rewrite map_app. cbn. rewrite Z.eqb_refl. f_equal.
    rewrite <- (map_id t) at 2. apply map_ext_in. intros x Hin.
    destruct (id x =? id r) eqn:Hx; [|reflexivity].
    assert (existsb (fun x => id x =? id r) t = true)
      by (apply existsb_exists; now exists x).
    congruence.
Qed.

Lemma delete_idempotent n t : delete n (delete n t) = delete n t.
Proof.
  unfold delete. induction t as [|x t IH]; [reflexivity|]. cbn.
  destruct (id x =? n) eqn:E; cbn; [assumption|]. now rewrite E, IH.
Qed.

Lemma delete_absent n t :
  existsb (fun x => id x =? n) t = false -> delete n t = t.
Proof.
  unfold delete. induction t as [|x t IH]; [reflexivity|]. cbn.
  destruct (id x =? n); cbn; [discriminate|]. intros H. now rewrite IH.
Qed.

End WarehouseFacts.

(** C1, as the code has it.  For a row whose key is an integer and whose
    three texts have no single quote, backslash or line break in them,
    the upsert and the delete each send the warehouse one query, a text
    with no parameters beside it, made by writing the values into the
    template; that text is the one MERGE statement (the one DELETE
    statement) of the template with the values of the row as its
    literals. *)
Theorem plain_row_query_is_template {W} (rt : runtime W) c data n f l e w :
  Warehouse.plain_name (TABLE_ID rt) = true ->
  getitem data "id" = Ok (VInt n) ->
  getitem data "first_name" = Ok (VStr f) ->
  getitem data "last_name" = Ok (VStr l) ->
  getitem data "email" = Ok (VStr e) ->
  Warehouse.plain f = true -> Warehouse.plain l = true -> Warehouse.plain e = true ->
  queries (trace (snd (run_bq_merge rt c data w)))
  = (queries (trace w) ++ [merge_query rt (VInt n) (VStr f) (VStr l) (VStr e)])%list
  /\ Warehouse.parse_script (merge_query rt (VInt n) (VStr f) (VStr l) (VStr e))
     = Some [Warehouse.Merge (TABLE_ID rt) (Warehouse.Row n f l e)
               (Warehouse.IdIs n) true true]
  /\ queries (trace (snd (run_bq_delete rt c data w)))
     = (queries (trace w) ++ [delete_query rt (VInt n)])%list
  /\ Warehouse.parse_script (delete_query rt (VInt n))
     = Some [Warehouse.Delete (TABLE_ID rt) (Warehouse.IdIs n)].
Proof.
  intros Hn Hi Hf Hl He Pf Pl Pe. repeat split.
  - now apply run_bq_merge_queries.
  - now apply WarehouseFacts.parse_script_merge.
  - now apply run_bq_delete_queries.
  - now apply WarehouseFacts.parse_script_delete.
Qed.

Lemma plain_row_query_is_template_witness :
  let data := VDict [("id", VInt 1); ("first_name", VStr "A");
                     ("last_name", VStr "B"); ("email", VStr "a@b.com")] in
  let c := Warehouse.client (TABLE_ID deployed) in
  let q := merge_query deployed (VInt 1) (VStr "A") (VStr "B") (VStr "a@b.com") in
  queries (trace (snd (run_bq_merge deployed c data (start [])))) = ([] ++ [q])%list
  /\ Warehouse.parse_script q
     = Some [Warehouse.Merge (TABLE_ID deployed) (Warehouse.Row 1 "A" "B" "a@b.com")
               (Warehouse.IdIs 1) true true]
  /\ queries (trace (snd (run_bq_delete deployed c data (start []))))
     = ([] ++ [delete_query deployed (VInt 1)])%list
  /\ Warehouse.parse_script (delete_query deployed (VInt 1))
     = Some [Warehouse.Delete (TABLE_ID deployed) (Warehouse.IdIs 1)].
Proof.
  apply (plain_row_query_is_template deployed (Warehouse.client (TABLE_ID deployed))
           (VDict [("id", VInt 1); ("first_name", VStr "A");
                   ("last_name", VStr "B"); ("email", VStr "a@b.com")])
           1 "A" "B" "a@b.com" (start []));
    reflexivity.
Defined.

(** C1, as the specification states it, fails.  The text of the query changes with
    the row, and a row can change what the text says: the create event of
    [msg_two_statements] makes the handler send one text that is a script
    of two MERGE statements, the first of which inserts without looking
    for the row. *)
Lemma query_text_depends_on_row :
  merge_query deployed (VInt 1) (VStr "A") (VStr "B") (VStr "a@b.com")
  <> merge_query deployed (VInt 1) (VStr "A") (VStr "B") (VStr "new@b.com")
  /\ queries (trace (snd (index deployed (push msg_two_statements) (start []))))
     = [merge_query deployed (VInt 1) (VStr "A") (VStr "B") (VStr two_statement_email)]
  /\ Warehouse.parse_script
       (merge_query deployed (VInt 1) (VStr "A") (VStr "B") (VStr two_statement_email))
     = Some [Warehouse.Merge (TABLE_ID deployed) (Warehouse.Row 1 "A" "B" "x")
               Warehouse.OnFalse false true;
             Warehouse.Merge (TABLE_ID deployed) (Warehouse.Row 1 "A" "B" "x")
               (Warehouse.IdIs 1) true true].
Proof.
  split; [|split].
  - intros H. vm_compute in H. discriminate.
  - vm_compute. reflexivity.
  - vm_compute. reflexivity.
Qed.

(** ** The warehouse after the events *)

(** An upsert of a row with an integer key and three plain texts, and a
    delete by an integer key, do to the table what the specification asks
    of them, and doing them again changes nothing. *)
Section Applied.

Variable project : option string.
Hypothesis name_ok : Warehouse.plain_name (TABLE_ID (deployment project)) = true.

Let c := Warehouse.client (TABLE_ID (deployment project)).

Lemma run_bq_merge_plain n f l e data w :
  getitem data "id" = Ok (VInt n) ->
  getitem data "first_name" = Ok (VStr f) ->
  getitem data "last_name" = Ok (VStr l) ->
  getitem data "email" = Ok (VStr e) ->
  Warehouse.plain f = true -> Warehouse.plain l = true -> Warehouse.plain e = true ->
  run_bq_merge (deployment project) c data w
  = (Ok tt,
     World (Warehouse.upsert (Warehouse.Row n f l e) (warehouse w))
       (trace w
        ++ [Printed (LogRunningQuery
              (merge_query (deployment project) (VInt n) (VStr f) (VStr l) (VStr e)));
            Queried
              (merge_query (deployment project) (VInt n) (VStr f) (VStr l) (VStr e));
            Printed (LogMerged (VInt n))])).
Proof.
  intros Hi Hf Hl He Pf Pl Pe.
  unfold run_bq_merge, run_query, bind, lift, print, emit, ret.
  rewrite Hi, Hf, Hl, He. cbn [warehouse trace]. unfold c, Warehouse.client.
  rewrite WarehouseFacts.execute_merge by assumption.
  cbn [warehouse trace]. rewrite <- !List.app_assoc. reflexivity.
Qed.

Lemma run_bq_merge_twice n f l e data w :
  getitem data "id" = Ok (VInt n) ->
  getitem data "first_name" = Ok (VStr f) ->
  getitem data "last_name" = Ok (VStr l) ->
  getitem data "email" = Ok (VStr e) ->
  Warehouse.plain f = true -> Warehouse.plain l = true -> Warehouse.plain e = true ->
  warehouse (snd (run_bq_merge (deployment project) c data
                    (snd (run_bq_merge (deployment project) c data w))))
  = warehouse (snd (run_bq_merge (deployment project) c data w)).
Proof.
  intros Hi Hf Hl He Pf Pl Pe.
  rewrite !(run_bq_merge_plain n f l e data) by assumption.
  cbn [snd warehouse]. apply WarehouseFacts.upsert_idempotent.
Qed.

Lemma run_bq_delete_integer n data w :
  getitem data "id" = Ok (VInt n) ->
  run_bq_delete (deployment project) c data w
  = (Ok tt,
     World (Warehouse.delete n (warehouse w))
       (trace w
        ++ [Printed (LogRunningQuery (delete_query (deployment project) (VInt n)));
            Queried (delete_query (deployment project) (VInt n));
            Printed (LogDeleted (VInt n))])).
Proof.
  intros Hi.
  unfold run_bq_delete, run_query, bind, lift, print, emit, ret.
  rewrite Hi. cbn [warehouse trace]. unfold c, Warehouse.client.
  rewrite WarehouseFacts.execute_delete by assumption.
  cbn [warehouse trace]. rewrite <- !List.app_assoc. reflexivity.
Qed.

Lemma run_bq_delete_absent n data w :
  getitem data "id" = Ok (VInt n) ->
  existsb (fun x => Warehouse.id x =? n) (warehouse w) = false ->
  fst (run_bq_delete (deployment project) c data w) = Ok tt
  /\ warehouse (snd (run_bq_delete (deployment project) c data w)) = warehouse w.
Proof.
  intros Hi Ha. rewrite (run_bq_delete_integer n data w Hi). cbn [fst snd warehouse].
  split; [reflexivity | now apply WarehouseFacts.delete_absent].
Qed.

End Applied.

(** The scenarios of the specification on the deployment: a create puts
    the row in place, an update after it leaves the last email, a delete
    removes the row, and a second delivery of the delete changes nothing
    and is acknowledged. *)
Example scenario_create :
  index deployed (push msg_create) (start [])
  = (Ok ("", 204),
     World [Warehouse.Row 1 "A" "B" "a@b.com"]
       [Printed (LogProcessing (VStr "c")
          (VDict [("id", VInt 1); ("first_name", VStr "A");
                  ("last_name", VStr "B"); ("email", VStr "a@b.com")]));
        Printed (LogRunningQuery
          (merge_query deployed (VInt 1) (VStr "A") (VStr "B") (VStr "a@b.com")));
        Queried (merge_query deployed (VInt 1) (VStr "A") (VStr "B") (VStr "a@b.com"));
        Printed (LogMerged (VInt 1))]).
Proof. vm_compute. reflexivity. Qed.

Example scenario_update :
  warehouse (snd (index deployed (push msg_update)
                    (snd (index deployed (push msg_create) (start [])))))
  = [Warehouse.Row 1 "A" "B" "new@b.com"].
Proof. vm_compute. reflexivity. Qed.

Example scenario_delete_twice :
  let t := [Warehouse.Row 1 "A" "B" "a@b.com"; Warehouse.Row 2 "C" "D" "c@d.com"] in
  let first := index deployed (push msg_delete) (start t) in
  let second := index deployed (push msg_delete) (snd first) in
  fst first = Ok ("", 204) /\ fst second = Ok ("", 204)
  /\ warehouse (snd first) = [Warehouse.Row 2 "C" "D" "c@d.com"]
  /\ warehouse (snd second) = [Warehouse.Row 2 "C" "D" "c@d.com"].
Proof. vm_compute. repeat split. Qed.

(** An envelope that is a number cannot be searched for a message: the
    [TypeError] is raised before the [try] and leaves the view, which the
    server turns into a 500. *)
Example scalar_envelope_fails :
  index deployed (Request (Ok (VInt 5))) (start []) = (Raise TypeError, start [])
  /\ status (Raise TypeError) = 500
  /\ acknowledged (Raise TypeError) = false.
Proof. repeat split. Qed.

(** C6 at the failing input.  The create event of [msg_two_statements]
    is answered [204] each time it is delivered; delivered once it leaves
    one row in the empty table, delivered twice it leaves two. *)
Theorem upsert_replay_adds_row :
  let once := index deployed (push msg_two_statements) (start []) in
  let twice := index deployed (push msg_two_statements) (snd once) in
  fst once = Ok ("", 204) /\ fst twice = Ok ("", 204)
  /\ warehouse (snd once) = [Warehouse.Row 1 "A" "B" "x"]
  /\ warehouse (snd twice) = [Warehouse.Row 1 "A" "B" "x"; Warehouse.Row 1 "A" "B" "x"].
Proof. vm_compute. repeat split. Qed.

(** C7 at the failing input.  The delete event whose key is the text
    [id] makes the handler send [WHERE id = id]: the answer is [204] and
    the rows with the keys 1 and 2, neither of which the event names, are
    gone. *)
Theorem delete_with_text_key_empties_table :
  let t := [Warehouse.Row 1 "A" "B" "a@b.com"; Warehouse.Row 2 "C" "D" "c@d.com"] in
  let r := index deployed (push msg_delete_id) (start t) in
  fst r = Ok ("", 204)
  /\ queries (trace (snd r)) = [delete_query deployed (VStr "id")]
  /\ Warehouse.parse_script (delete_query deployed (VStr "id"))
     = Some [Warehouse.Delete (TABLE_ID deployed) Warehouse.IdIsId]
  /\ warehouse (snd r) = [].
Proof. vm_compute. repeat split. Qed.

(** ** The course of a request *)

Section Course.
Context {W : Type}.
Variable rt : runtime W.

(** The body of the [try] block carries out the plan. *)
Lemma process_plan c envelope w :
  process rt c envelope w
  = match plan_of rt envelope with
    | Fail e => (Raise e, w)
    | IgnoreNoPayload text =>
        (Ok (Some ("", 204)),
         World (warehouse w) (trace w ++ [Printed (LogNoPayload text)]))
    | IgnoreIncomplete payload =>
        (Ok (Some ("", 204)),
         World (warehouse w) (trace w ++ [Printed (LogNoOpOrData payload)]))
    | Apply op data =>
        match (if eq_str "d" op then run_bq_delete rt c data
               else run_bq_merge rt c data)
                (World (warehouse w) (trace w ++ [Printed (LogProcessing op data)]))
        with
        | (Ok _, w') => (Ok None, w')
        | (Raise e, w') => (Raise e, w')
        end
    end.
Proof.
  unfold process, plan_of, decode_envelope, bind, lift, print, emit, ret.
  destruct (getitem envelope "message") as [message|]; [|reflexivity].
  destruct (getitem message "data") as [data64|]; [|reflexivity].
  destruct (b64decode rt data64) as [raw|]; [|reflexivity].
  destruct (decode_utf8 rt raw) as [text|]; [|reflexivity].
  destruct (json_loads rt text) as [doc|]; [|reflexivity].
  destruct (contains "payload" doc) as [[|]|]; cbn [negb]; try reflexivity.
  destruct (getitem doc "payload") as [payload|]; [|reflexivity].
  destruct (get payload "op") as [op|]; [|reflexivity].
  destruct (if negb (eq_str "d" op) then get payload "after"
            else get payload "before") as [data|]; [|reflexivity].
  destruct (negb (truthy data) || negb (truthy op)); [reflexivity|].
  destruct ((if eq_str "d" op then run_bq_delete rt c data
             else run_bq_merge rt c data) _) as [[[]|e] w']; reflexivity.
Qed.

(** What applying an event does: nothing when the row cannot be read,
    otherwise the query is shown, then sent, and a last line is printed
    when the client accepted it. *)
Lemma apply_cases c op data w :
  match query_of rt op data with
  | Raise e =>
      (if eq_str "d" op then run_bq_delete rt c data else run_bq_merge rt c data) w
      = (Raise e, w)
  | Ok q =>
      match c q (warehouse w) with
      | (Ok _, wh) =>
          exists l,
            (if eq_str "d" op then run_bq_delete rt c data
             else run_bq_merge rt c data) w
            = (Ok tt,
               World wh (trace w ++ [Printed (LogRunningQuery q); Queried q;
                                     Printed l]))
      | (Raise e, wh) =>
          (if eq_str "d" op then run_bq_delete rt c data
           else run_bq_merge rt c data) w
          = (Raise e,
             World wh (trace w ++ [Printed (LogRunningQuery q); Queried q]))
      end
  end.
Proof.
  unfold query_of, row_fields, run_bq_delete, run_bq_merge, run_query,
    bind, lift, print, emit, ret.
  destruct (eq_str "d" op).
  - destruct (getitem data "id") as [pk|]; [|reflexivity]. cbn [warehouse trace].
    destruct (c _ (warehouse w)) as [[[]|e] wh]; cbn [warehouse trace];
      rewrite <- ?List.app_assoc; [eexists|]; reflexivity.
  - destruct (getitem data "id") as [i|]; [|reflexivity].
    destruct (getitem data "first_name") as [f|]; [|reflexivity].
    destruct (getitem data "last_name") as [l|]; [|reflexivity].
    destruct (getitem data "email") as [e|]; [|reflexivity]. cbn [warehouse trace].
    destruct (c _ (warehouse w)) as [[[]|e'] wh]; cbn [warehouse trace];
      rewrite <- ?List.app_assoc; [eexists|]; reflexivity.
Qed.

(** A plan fails with a JSON error only after the data was read. *)
Lemma plan_json_error envelope :
  plan_of rt envelope = Fail JSONDecodeError ->
  exists message data64,
    getitem envelope "message" = Ok message /\ getitem message "data" = Ok data64.
Proof.
  unfold plan_of, decode_envelope. intros H.
  destruct (getitem envelope "message") as [message|e] eqn:Hm.
  - destruct (getitem message "data") as [data64|e] eqn:Hd.
    + now exists message, data64.
    + injection H as ->. now apply getitem_raise in Hd.
  - injection H as ->. now apply getitem_raise in Hm.
Qed.

(** A plan to apply an event was made after the data was read. *)
Lemma plan_apply_read envelope op data :
  plan_of rt envelope = Apply op data ->
  exists message data64,
    getitem envelope "message" = Ok message /\ getitem message "data" = Ok data64.
Proof.
  unfold plan_of, decode_envelope. intros H.
  destruct (getitem envelope "message") as [message|e] eqn:Hm; [|discriminate].
  destruct (getitem message "data") as [data64|e] eqn:Hd; [|discriminate].
  now exists message, data64.
Qed.

(** The line the [except] clauses print is [failure_line]. *)
Lemma caught c req envelope w e w' :
  bq_client rt = Some c -> get_json req = Ok envelope ->
  no_message envelope = Ok false ->
  process rt c envelope w = (Raise e, w') ->
  (exists message data64,
      getitem envelope "message" = Ok message /\ getitem message "data" = Ok data64)
  \/ is_JSONDecodeError e = false ->
  index rt req w
  = (Ok ("Message processing error", 200),
     World (warehouse w') (trace w' ++ [Printed (failure_line envelope e)])).
Proof.
  intros Hc Hj Hn Hp Hr.
  unfold index, try_except, bind, lift, ret, print, emit, failure_line.
  rewrite Hc, Hj, Hn, Hp.
  destruct (is_JSONDecodeError e) eqn:He; [|reflexivity].
  destruct Hr as [(m & d & -> & ->)|]; [reflexivity | discriminate].
Qed.

(** A request that passed the envelope test, by its plan *)
Lemma index_plan c req envelope w :
  bq_client rt = Some c -> get_json req = Ok envelope ->
  no_message envelope = Ok false ->
  index rt req w
  = match plan_of rt envelope with
    | Fail e =>
        (Ok ("Message processing error", 200),
         World (warehouse w) (trace w ++ [Printed (failure_line envelope e)]))
    | IgnoreNoPayload text =>
        (Ok ("", 204),
         World (warehouse w) (trace w ++ [Printed (LogNoPayload text)]))
    | IgnoreIncomplete payload =>
        (Ok ("", 204),
         World (warehouse w) (trace w ++ [Printed (LogNoOpOrData payload)]))
    | Apply op data =>
        match (if eq_str "d" op then run_bq_delete rt c data
               else run_bq_merge rt c data)
                (World (warehouse w) (trace w ++ [Printed (LogProcessing op data)]))
        with
        | (Ok _, w') => (Ok ("", 204), w')
        | (Raise e, w') =>
            (Ok ("Message processing error", 200),
             World (warehouse w') (trace w' ++ [Printed (failure_line envelope e)]))
        end
    end.
Proof.
  intros Hc Hj Hn.
  pose proof (process_plan c envelope w) as Hp.
  destruct (plan_of rt envelope) as [e|text|payload|op data] eqn:Hplan.
  - apply (caught c req envelope w e w Hc Hj Hn Hp).
    destruct (is_JSONDecodeError e) eqn:He; [left | now right].
    destruct e; try discriminate. now apply plan_json_error.
  - unfold index, try_except, bind, lift, ret. now rewrite Hc, Hj, Hn, Hp.
  - unfold index, try_except, bind, lift, ret. now rewrite Hc, Hj, Hn, Hp.
  - destruct ((if eq_str "d" op then run_bq_delete rt c data
               else run_bq_merge rt c data) _) as [[[]|e] w'].
    + unfold index, try_except, bind, lift, ret. now rewrite Hc, Hj, Hn, Hp.
    + apply (caught c req envelope w e w' Hc Hj Hn Hp).
      left. now apply (plan_apply_read envelope op data).
Qed.

End Course.

Lemma world_eta {W} (w : world W) : World (warehouse w) (trace w ++ []) = w.
Proof. destruct w. cbn. now rewrite List.app_nil_r. Qed.

(** The two shapes of a request: it sends nothing and leaves the
    warehouse alone, or it sends one query, shown on the line before. *)
Lemma index_shapes {W} (rt : runtime W) req w :
  (exists evs,
      snd (index rt req w) = World (warehouse w) (trace w ++ evs)
      /\ queries evs = [])
  \/ (exists c q l0 tl,
        bq_client rt = Some c
        /\ index rt req w
           = (match fst (c q (warehouse w)) with
              | Ok _ => Ok ("", 204)
              | Raise _ => Ok ("Message processing error", 200)
              end,
              World (snd (c q (warehouse w)))
                (trace w ++ Printed l0 :: Printed (LogRunningQuery q)
                         :: Queried q :: tl))
        /\ queries tl = []).
Proof.
  destruct (bq_client rt) as [c|] eqn:Hc.
  2:{ left. exists [Printed LogClientMissing]. unfold index. rewrite Hc. now split. }
  destruct (get_json req) as [envelope|e] eqn:Hj.
  2:{ left. exists []. unfold index, bind, lift. rewrite Hc, Hj. cbn [snd].
      now rewrite world_eta. }
  destruct (no_message envelope) as [[|]|e] eqn:Hn.
  - left. exists [Printed LogBadRequest].
    now rewrite (index_bad_request rt c req envelope w Hc Hj Hn).
  - rewrite (index_plan rt c req envelope w Hc Hj Hn).
    destruct (plan_of rt envelope) as [e|text|payload|op data].
    + left. now exists [Printed (failure_line envelope e)].
    + left. now exists [Printed (LogNoPayload text)].
    + left. now exists [Printed (LogNoOpOrData payload)].
    + pose proof (apply_cases rt c op data
                    (World (warehouse w) (trace w ++ [Printed (LogProcessing op data)])))
        as Ha.
      destruct (query_of rt op data) as [q|e].
      * right. cbn [warehouse trace] in Ha.
        destruct (c q (warehouse w)) as [[[]|e] wh] eqn:Hq.
        -- destruct Ha as (l & ->).
           exists c, q, (LogProcessing op data), [Printed l].
           rewrite Hq. cbn [fst snd]. rewrite <- List.app_assoc. now repeat split.
        -- rewrite Ha. cbn [warehouse trace].
           exists c, q, (LogProcessing op data), [Printed (failure_line envelope e)].
           rewrite Hq. cbn [fst snd]. rewrite <- !List.app_assoc. now repeat split.
      * left. rewrite Ha. cbn [snd warehouse trace].
        exists [Printed (LogProcessing op data); Printed (failure_line envelope e)].
        rewrite <- List.app_assoc. now split.
  - left. exists []. unfold index, bind, lift. rewrite Hc, Hj, Hn. cbn [snd].
    now rewrite world_eta.
Qed.

Lemma shown_first_prints evs : queries evs = [] -> shown_first evs = true.
Proof.
  induction evs as [|[l|q] evs IH]; cbn [queries flat_map]; intros H;
    [reflexivity| |discriminate].
  change (queries evs = []) in H.
  destruct l; cbn [shown_first]; try (now apply IH).
  destruct evs as [|[l'|q'] evs']; [reflexivity | now apply IH | discriminate].
Qed.

(** X4.  Whatever the request, the runtime and the warehouse, the handler
    only adds events to the trace, and at most one of them is a query. *)
Theorem at_most_one_query {W} (rt : runtime W) req w :
  exists evs,
    trace (snd (index rt req w)) = (trace w ++ evs)%list
    /\ (length (queries evs) <= 1)%nat.
Proof.
  destruct (index_shapes rt req w) as [(evs & E & Q)|(c & q & l0 & tl & _ & E & Q)].
  - exists evs. rewrite E, Q. cbn. split; [reflexivity | lia].
  - eexists. rewrite E. cbn [snd trace]. split; [reflexivity|].
    cbn. change (flat_map _ tl) with (queries tl). rewrite Q. cbn. lia.
Qed.

(** X5.  A request that sends no query leaves the warehouse as it was. *)
Theorem warehouse_untouched_without_query {W} (rt : runtime W) req w :
  queries (trace (snd (index rt req w))) = queries (trace w) ->
  warehouse (snd (index rt req w)) = warehouse w.
Proof.
  destruct (index_shapes rt req w) as [(evs & E & Q)|(c & q & l0 & tl & _ & E & Q)].
  - now rewrite E.
  - rewrite E. cbn [snd trace warehouse]. rewrite queries_app. cbn.
    change (flat_map _ tl) with (queries tl). rewrite Q. intros H. exfalso.
    apply (f_equal (@length string)) in H. rewrite List.length_app in H. cbn in H. lia.
Qed.

Lemma warehouse_untouched_without_query_witness :
  warehouse (snd (index deployed (push msg_hello) (start [Warehouse.Row 1 "x" "y" "z"])))
  = [Warehouse.Row 1 "x" "y" "z"].
Proof.
  apply (warehouse_untouched_without_query deployed (push msg_hello)
           (start [Warehouse.Row 1 "x" "y" "z"])).
  reflexivity.
Defined.

(** X10.  Every query the handler sends is printed first: among the
    events of a request, a query comes right after the line that shows
    its text. *)
Theorem query_shown_before_sent {W} (rt : runtime W) req w :
  exists evs,
    trace (snd (index rt req w)) = (trace w ++ evs)%list
    /\ shown_first evs = true.
Proof.
  destruct (index_shapes rt req w) as [(evs & E & Q)|(c & q & l0 & tl & _ & E & Q)].
  - exists evs. rewrite E. split; [reflexivity | now apply shown_first_prints].
  - eexists. rewrite E. cbn [snd trace]. split; [reflexivity|].
    destruct l0; cbn [shown_first]; rewrite String.eqb_refl;
      now rewrite (shown_first_prints tl Q).
Qed.

(** X11.  When a query was sent, the answer is [204] exactly when the
    client accepted it: a query that failed is never answered [204]. *)
Theorem answer_after_query {W} (rt : runtime W) c req q w :
  bq_client rt = Some c ->
  queries (trace (snd (index rt req w))) = (queries (trace w) ++ [q])%list ->
  (fst (index rt req w) = Ok ("", 204) <-> fst (c q (warehouse w)) = Ok tt)
  /\ warehouse (snd (index rt req w)) = snd (c q (warehouse w)).
Proof.
  intros Hc Hq.
  destruct (index_shapes rt req w) as [(evs & E & Q)|(c' & q' & l0 & tl & Hc' & E & Q)].
  - exfalso. rewrite E in Hq. cbn [trace] in Hq. rewrite queries_app, Q in Hq.
    apply (f_equal (@length string)) in Hq. rewrite !List.length_app in Hq.
    cbn in Hq. lia.
  - rewrite Hc in Hc'. injection Hc' as <-.
    assert (q' = q).
    { rewrite E in Hq. cbn [snd trace] in Hq. rewrite queries_app in Hq.
      apply List.app_inv_head in Hq. cbn in Hq.
      change (flat_map _ tl) with (queries tl) in Hq. rewrite Q in Hq.
      now injection Hq. }
    subst q'. rewrite E. cbn [fst snd warehouse]. split; [|reflexivity].
    destruct (fst (c q (warehouse w))) as [[]|e]; split; intros H;
      try reflexivity; discriminate.
Qed.

Lemma answer_after_query_witness :
  (fst (index scripted (push msg_create) (World [Raise (WarehouseError false)] []))
   = Ok ("", 204)
   <-> fst (scripted_client
              (merge_query scripted (VInt 1) (VStr "A") (VStr "B") (VStr "a@b.com"))
              [Raise (WarehouseError false)]) = Ok tt)
  /\ warehouse (snd (index scripted (push msg_create)
                       (World [Raise (WarehouseError false)] [])))
     = snd (scripted_client
              (merge_query scripted (VInt 1) (VStr "A") (VStr "B") (VStr "a@b.com"))
              [Raise (WarehouseError false)]).
Proof.
  apply (answer_after_query scripted scripted_client (push msg_create)
           (merge_query scripted (VInt 1) (VStr "A") (VStr "B") (VStr "a@b.com"))
           (World [Raise (WarehouseError false)] []));
    reflexivity.
Defined.

(** ** Answers and exceptions *)

Lemma no_message_raises envelope e :
  no_message envelope = Raise e <-> unsearchable envelope = true /\ e = TypeError.
Proof.
  unfold no_message, unsearchable.
  destruct envelope as [|b|n|nz t|s|l|d]; cbn [truthy contains negb].
  - split; [discriminate | intros [? _]; discriminate].
  - destruct b; cbn; split; try discriminate;
      try (intros [? _]; discriminate).
    + intros H. now injection H as <-.
    + now intros [_ ->].
  - destruct (n =? 0); cbn; split; try discriminate;
      try (intros [? _]; discriminate).
    + intros H. now injection H as <-.
    + now intros [_ ->].
  - destruct nz; cbn; split; try discriminate;
      try (intros [? _]; discriminate).
    + intros H. now injection H as <-.
    + now intros [_ ->].
  - destruct (negb (String.eqb s "")); split; try discriminate;
      intros [? _]; discriminate.
  - destruct l; split; try discriminate; intros [? _]; discriminate.
  - destruct d; split; try discriminate; intros [? _]; discriminate.
Qed.

(** The answer of a request that passed the envelope test is never an
    exception. *)
Lemma index_plan_answers {W} (rt : runtime W) c req envelope w :
  bq_client rt = Some c -> get_json req = Ok envelope ->
  no_message envelope = Ok false ->
  fst (index rt req w) = Ok ("", 204)
  \/ fst (index rt req w) = Ok ("Message processing error", 200).
Proof.
  intros Hc Hj Hn. rewrite (index_plan rt c req envelope w Hc Hj Hn).
  destruct (plan_of rt envelope) as [e|text|payload|op data]; cbn [fst]; auto.
  destruct ((if eq_str "d" op then run_bq_delete rt c data
             else run_bq_merge rt c data) _) as [[[]|e] w']; cbn [fst]; auto.
Qed.

(** X1.  The handler has four answers: an empty [204], a [200] with one
    of two fixed texts, and a [400] with a fixed text. *)
Theorem four_answers {W} (rt : runtime W) req w body code :
  fst (index rt req w) = Ok (body, code) ->
  (body, code) = ("", 204)
  \/ (body, code) = ("Message processing error", 200)
  \/ (body, code) = ("BigQuery client not initialized", 200)
  \/ (body, code) = ("Bad Request: No Pub/Sub message received", 400).
Proof.
  intros H.
  destruct (bq_client rt) as [c|] eqn:Hc.
  2:{ unfold index in H. rewrite Hc in H. cbn in H. injection H as <- <-. auto. }
  destruct (get_json req) as [envelope|e] eqn:Hj.
  2:{ unfold index, bind, lift in H. rewrite Hc, Hj in H. discriminate. }
  destruct (no_message envelope) as [[|]|e] eqn:Hn.
  - rewrite (index_bad_request rt c req envelope w Hc Hj Hn) in H.
    injection H as <- <-. auto.
  - destruct (index_plan_answers rt c req envelope w Hc Hj Hn) as [E|E];
      rewrite E in H; injection H as <- <-; auto.
  - unfold index, bind, lift in H. rewrite Hc, Hj, Hn in H. discriminate.
Qed.

Lemma four_answers_witness :
  ("", 204) = ("", 204)
  \/ ("", 204) = ("Message processing error", 200)
  \/ ("", 204) = ("BigQuery client not initialized", 200)
  \/ ("", 204) = ("Bad Request: No Pub/Sub message received", 400).
Proof.
  apply (four_answers deployed (push msg_create) (start []) "" 204).
  reflexivity.
Defined.

(** X2.  An exception leaves the view in two cases only, both with a
    client in place: [get_json] aborted the request, or the body is a
    number other than zero or [true], on which the envelope test raises
    [TypeError].  Nothing was printed or sent by then. *)
Theorem exception_leaves_view {W} (rt : runtime W) req w e :
  (fst (index rt req w) = Raise e
   <-> bq_client rt <> None
       /\ (get_json req = Raise e
           \/ exists envelope,
                get_json req = Ok envelope
                /\ unsearchable envelope = true /\ e = TypeError))
  /\ (fst (index rt req w) = Raise e -> snd (index rt req w) = w).
Proof.
  destruct (bq_client rt) as [c|] eqn:Hc.
  2:{ unfold index. rewrite Hc. cbn. split; [split|]; try discriminate.
      intros [H _]. now destruct H. }
  destruct (get_json req) as [envelope|e0] eqn:Hj.
  2:{ assert (E : index rt req w = (Raise e0, w))
        by (unfold index, bind, lift; now rewrite Hc, Hj).
      rewrite E. cbn [fst snd]. split; [split|reflexivity].
      - intros H. injection H as <-. split; [discriminate | now left].
      - intros [_ [H|(env & H & _)]]; [now injection H as <- | discriminate]. }
  assert (Hno : forall env, Ok envelope = Ok env -> unsearchable env = true ->
                            no_message envelope = Raise TypeError).
  { intros env H Hu. injection H as <-. now apply no_message_raises. }
  destruct (no_message envelope) as [[|]|e0] eqn:Hn.
  - rewrite (index_bad_request rt c req envelope w Hc Hj Hn). cbn [fst snd].
    split; [split|]; try discriminate.
    intros [_ [H|(env & H & Hu & _)]]; [discriminate|].
    specialize (Hno env H Hu). discriminate.
  - assert (Hne : fst (index rt req w) <> Raise e).
    { destruct (index_plan_answers rt c req envelope w Hc Hj Hn) as [E|E];
        rewrite E; discriminate. }
    split; [split|]; try (intros H; now destruct Hne).
    intros [_ [H|(env & H & Hu & _)]]; [discriminate|].
    specialize (Hno env H Hu). discriminate.
  - assert (E : index rt req w = (Raise e0, w))
      by (unfold index, bind, lift; now rewrite Hc, Hj, Hn).
    apply no_message_raises in Hn as [Hu ->].
    rewrite E. cbn [fst snd]. split; [split|reflexivity].
    + intros H. injection H as <-. split; [discriminate|].
      right. now exists envelope.
    + intros [_ [H|(env & H & _ & ->)]]; [discriminate | reflexivity].
Qed.

(** X3.  An empty body of any kind ([null], [false], zero, an empty text,
    array or object) is refused with a [400] before anything else is
    done: one line is printed and the warehouse is left alone. *)
Theorem falsy_envelope_rejected {W} (rt : runtime W) c req envelope w :
  bq_client rt = Some c ->
  get_json req = Ok envelope ->
  truthy envelope = false ->
  index rt req w
  = (Ok ("Bad Request: No Pub/Sub message received", 400),
     World (warehouse w) (trace w ++ [Printed LogBadRequest])).
Proof.
  intros Hc Hj Ht. apply (index_bad_request rt c req envelope w Hc Hj).
  unfold no_message. now rewrite Ht.
Qed.

Lemma falsy_envelope_rejected_witness :
  index deployed (Request (Ok (VInt 0))) (start [])
  = (Ok ("Bad Request: No Pub/Sub message received", 400),
     World [] [Printed LogBadRequest]).
Proof.
  apply (falsy_envelope_rejected deployed (Warehouse.client (TABLE_ID deployed))
           (Request (Ok (VInt 0))) (VInt 0) (start []));
    reflexivity.
Defined.

(** ** Requests that fail before their event is applied *)

Section Failing.
Context {W : Type}.
Variable rt : runtime W.

Lemma delivered_plan req text doc :
  decode_message rt req = Ok (text, doc) ->
  exists envelope,
    get_json req = Ok envelope /\ no_message envelope = Ok false
    /\ decode_envelope rt envelope = Ok (text, doc).
Proof.
  intros H.
  destruct (decode_message_inv rt req text doc H)
    as (envelope & message & data64 & raw & H1 & H2 & H3 & H4 & H5 & H6 & H7).
  exists envelope. repeat split; try assumption.
  unfold decode_envelope. now rewrite H3, H4, H5, H6, H7.
Qed.

(** X6.  Data that decodes to a text that is not JSON: the answer is
    [200], the one line printed shows the data as it came, and nothing
    reaches the warehouse. *)
Theorem bad_json_acknowledged c req envelope message data64 raw text w :
  bq_client rt = Some c ->
  get_json req = Ok envelope ->
  no_message envelope = Ok false ->
  getitem envelope "message" = Ok message ->
  getitem message "data" = Ok data64 ->
  b64decode rt data64 = Ok raw ->
  decode_utf8 rt raw = Ok text ->
  json_loads rt text = Raise JSONDecodeError ->
  index rt req w
  = (Ok ("Message processing error", 200),
     World (warehouse w) (trace w ++ [Printed (LogJsonError data64)])).
Proof.
  intros Hc Hj Hn Hm Hd Hb Hu Hl.
  rewrite (index_plan rt c req envelope w Hc Hj Hn).
  unfold plan_of, decode_envelope, failure_line.
  now rewrite Hm, Hd, Hb, Hu, Hl.
Qed.

(** X16.  A message whose data is missing or cannot be decoded (no
    [data] field, data that is no base64, bytes that are no UTF-8, a text
    that is no JSON) is answered [200]: one line is printed, nothing is
    sent and the warehouse is left as it was. *)
Theorem undecodable_acknowledged c req envelope e w :
  bq_client rt = Some c ->
  get_json req = Ok envelope ->
  no_message envelope = Ok false ->
  decode_envelope rt envelope = Raise e ->
  index rt req w
  = (Ok ("Message processing error", 200),
     World (warehouse w) (trace w ++ [Printed (failure_line envelope e)])).
Proof.
  intros Hc Hj Hn Hp. rewrite (index_plan rt c req envelope w Hc Hj Hn).
  unfold plan_of. now rewrite Hp.
Qed.

(** X15.  A body that is an array or a text and passes the envelope test
    (it contains ["message"]) has no message to read: the answer is
    [200] and nothing is sent. *)
Theorem non_object_envelope_acknowledged c req envelope w :
  bq_client rt = Some c ->
  get_json req = Ok envelope ->
  no_message envelope = Ok false ->
  is_object envelope = false ->
  index rt req w
  = (Ok ("Message processing error", 200),
     World (warehouse w) (trace w ++ [Printed (LogUnexpected TypeError)])).
Proof.
  intros Hc Hj Hn Ho. rewrite (index_plan rt c req envelope w Hc Hj Hn).
  unfold plan_of, decode_envelope, failure_line.
  destruct envelope; try discriminate; reflexivity.
Qed.

(** X18.  A document whose payload is not an object ([null] as in a
    tombstone, a number, a text, an array) is not ignored: reading [op]
    from it raises [AttributeError], and the answer is [200] with nothing
    sent. *)
Theorem non_object_payload_acknowledged c req text d payload w :
  bq_client rt = Some c ->
  decode_message rt req = Ok (text, VDict d) ->
  lookup "payload" d = Some payload ->
  is_object payload = false ->
  index rt req w
  = (Ok ("Message processing error", 200),
     World (warehouse w) (trace w ++ [Printed (LogUnexpected AttributeError)])).
Proof.
  intros Hc Hd Hp Ho.
  destruct (delivered_plan req text (VDict d) Hd) as (envelope & Hj & Hn & He).
  rewrite (index_plan rt c req envelope w Hc Hj Hn).
  unfold plan_of, failure_line. rewrite He. cbn [contains getitem]. unfold has_key.
  rewrite Hp. destruct payload; try discriminate; reflexivity.
Qed.

(** A value with a field is an object that is not empty. *)
Lemma getitem_truthy data k v : getitem data k = Ok v -> truthy data = true.
Proof.
  destruct data as [| | | | | |[|kv d]]; try discriminate; reflexivity.
Qed.

(** An event with an [op] and the row of its operation is planned to be
    applied. *)
Lemma applied_event req text d p op data :
  decode_message rt req = Ok (text, VDict d) ->
  lookup "payload" d = Some (VDict p) ->
  lookup "op" p = Some op -> truthy op = true ->
  required_row p = Some data -> truthy data = true ->
  exists envelope,
    get_json req = Ok envelope /\ no_message envelope = Ok false
    /\ plan_of rt envelope = Apply op data.
Proof.
  intros Hd Hp Hop Hto Hr Htd.
  destruct (delivered_plan req text (VDict d) Hd) as (envelope & Hj & Hn & He).
  exists envelope. repeat split; try assumption.
  unfold plan_of. rewrite He. cbn [contains getitem get]. unfold has_key.
  rewrite Hp. cbn [get]. rewrite Hop. unfold required_row in Hr.
  rewrite Hop in Hr.
  destruct (eq_str "d" op); cbn [negb]; rewrite Hr, Htd, Hto; reflexivity.
Qed.

Lemma query_of_raise op data e :
  query_of rt op data = Raise e -> is_JSONDecodeError e = false.
Proof.
  unfold query_of, row_fields.
  destruct (eq_str "d" op).
  - destruct (getitem data "id") eqn:E; [discriminate|].
    intros H. injection H as <-. now apply getitem_raise in E.
  - destruct (getitem data "id") eqn:E1.
    2:{ intros H. injection H as <-. now apply getitem_raise in E1. }
    destruct (getitem data "first_name") eqn:E2.
    2:{ intros H. injection H as <-. now apply getitem_raise in E2. }
    destruct (getitem data "last_name") eqn:E3.
    2:{ intros H. injection H as <-. now apply getitem_raise in E3. }
    destruct (getitem data "email") eqn:E4; [discriminate|].
    intros H. injection H as <-. now apply getitem_raise in E4.
Qed.

(** The query of an applied event is the one query of its request. *)
Lemma applied_queries c req envelope op data q w :
  bq_client rt = Some c -> get_json req = Ok envelope ->
  no_message envelope = Ok false ->
  plan_of rt envelope = Apply op data ->
  query_of rt op data = Ok q ->
  queries (trace (snd (index rt req w))) = (queries (trace w) ++ [q])%list.
Proof.
  intros Hc Hj Hn Hp Hq. rewrite (index_plan rt c req envelope w Hc Hj Hn), Hp.
  pose proof (apply_cases rt c op data
                (World (warehouse w) (trace w ++ [Printed (LogProcessing op data)])))
    as Ha.
  rewrite Hq in Ha. cbn [warehouse trace] in Ha.
  destruct (c q (warehouse w)) as [[[]|e] wh].
  - destruct Ha as (l & ->). cbn [snd trace].
    rewrite !queries_app. cbn. now rewrite ?List.app_nil_r.
  - rewrite Ha. cbn [snd trace warehouse].
    rewrite !queries_app. cbn. now rewrite ?List.app_nil_r.
Qed.

(** X7.  Any [op] other than the text [d] is an upsert: [c], [u], [r] or
    a code nobody knows, a text or not.  The row is read from [after] and
    the one query sent is the MERGE of its four fields. *)
Theorem other_ops_upsert c req text d p op data id first_name last_name email w :
  bq_client rt = Some c ->
  decode_message rt req = Ok (text, VDict d) ->
  lookup "payload" d = Some (VDict p) ->
  lookup "op" p = Some op -> truthy op = true -> eq_str "d" op = false ->
  lookup "after" p = Some data ->
  row_fields data = Ok (id, first_name, last_name, email) ->
  queries (trace (snd (index rt req w)))
  = (queries (trace w) ++ [merge_query rt id first_name last_name email])%list.
Proof.
  intros Hc Hd Hp Hop Hto Hno Ha Hr.
  assert (Hreq : required_row p = Some data)
    by (unfold required_row; now rewrite Hop, Hno).
  assert (Htd : truthy data = true).
  { unfold row_fields in Hr. destruct (getitem data "id") eqn:E; [|discriminate].
    exact (getitem_truthy _ _ _ E). }
  destruct (applied_event req text d p op data Hd Hp Hop Hto Hreq Htd)
    as (envelope & Hj & Hn & Hplan).
  apply (applied_queries c req envelope op data _ w Hc Hj Hn Hplan).
  unfold query_of. now rewrite Hno, Hr.
Qed.

(** X8.  A delete reads its key from [before] and nothing else: whatever
    [after] and the other fields of [before] hold, the one query sent is
    the DELETE for [before["id"]]. *)
Theorem delete_reads_before c req text d p data pk_id w :
  bq_client rt = Some c ->
  decode_message rt req = Ok (text, VDict d) ->
  lookup "payload" d = Some (VDict p) ->
  lookup "op" p = Some (VStr "d") ->
  lookup "before" p = Some data ->
  getitem data "id" = Ok pk_id ->
  queries (trace (snd (index rt req w)))
  = (queries (trace w) ++ [delete_query rt pk_id])%list.
Proof.
  intros Hc Hd Hp Hop Hb Hi.
  assert (Hreq : required_row p = Some data)
    by (unfold required_row; now rewrite Hop).
  pose proof (getitem_truthy _ _ _ Hi) as Htd.
  destruct (applied_event req text d p (VStr "d") data Hd Hp Hop eq_refl Hreq Htd)
    as (envelope & Hj & Hn & Hplan).
  apply (applied_queries c req envelope (VStr "d") data _ w Hc Hj Hn Hplan).
  unfold query_of. cbn [eq_str]. now rewrite Hi.
Qed.

(** X9.  An event whose row cannot be read (it is no object, or it lacks
    the key of a delete or one of the four fields of an upsert) is not
    sent to the warehouse: the subscript raises before the query is
    built, and the answer is [200]. *)
Theorem unreadable_row_not_sent c req text d p op data e w :
  bq_client rt = Some c ->
  decode_message rt req = Ok (text, VDict d) ->
  lookup "payload" d = Some (VDict p) ->
  lookup "op" p = Some op -> truthy op = true ->
  required_row p = Some data -> truthy data = true ->
  query_of rt op data = Raise e ->
  index rt req w
  = (Ok ("Message processing error", 200),
     World (warehouse w)
       (trace w ++ [Printed (LogProcessing op data); Printed (LogUnexpected e)])).
Proof.
  intros Hc Hd Hp Hop Hto Hreq Htd Hq.
  destruct (applied_event req text d p op data Hd Hp Hop Hto Hreq Htd)
    as (envelope & Hj & Hn & Hplan).
  rewrite (index_plan rt c req envelope w Hc Hj Hn), Hplan.
  pose proof (apply_cases rt c op data
                (World (warehouse w) (trace w ++ [Printed (LogProcessing op data)])))
    as Ha.
  rewrite Hq in Ha. rewrite Ha. cbn [warehouse trace].
  unfold failure_line. rewrite (query_of_raise op data e Hq).
  now rewrite <- List.app_assoc.
Qed.

End Failing.

Lemma bad_json_acknowledged_witness :
  index deployed (push msg_not_json) (start [])
  = (Ok ("Message processing error", 200),
     World [] [Printed (LogJsonError (VStr msg_not_json))]).
Proof.
  eapply (bad_json_acknowledged deployed (Warehouse.client (TABLE_ID deployed))
            (push msg_not_json) _ _ (VStr msg_not_json) _ _ (start []));
    reflexivity.
Defined.

Lemma undecodable_acknowledged_witness :
  index deployed (Request (Ok (VDict [("message", VDict [])]))) (start [])
  = (Ok ("Message processing error", 200),
     World [] [Printed (LogUnexpected (KeyError "data"))]).
Proof.
  apply (undecodable_acknowledged deployed (Warehouse.client (TABLE_ID deployed))
           (Request (Ok (VDict [("message", VDict [])])))
           (VDict [("message", VDict [])]) (KeyError "data") (start []));
    reflexivity.
Defined.

Lemma non_object_envelope_acknowledged_witness :
  index deployed array_body (start [])
  = (Ok ("Message processing error", 200),
     World [] [Printed (LogUnexpected TypeError)]).
Proof.
  apply (non_object_envelope_acknowledged deployed
           (Warehouse.client (TABLE_ID deployed)) array_body
           (VList [VStr "message"]) (start []));
    reflexivity.
Defined.

Lemma non_object_payload_acknowledged_witness :
  index deployed (push msg_null_payload) (start [])
  = (Ok ("Message processing error", 200),
     World [] [Printed (LogUnexpected AttributeError)]).
Proof.
  apply (non_object_payload_acknowledged deployed
           (Warehouse.client (TABLE_ID deployed)) (push msg_null_payload)
           (decoded_text msg_null_payload) [("payload", VNone)] VNone (start []));
    reflexivity.
Defined.

Lemma other_ops_upsert_witness :
  queries (trace (snd (index deployed (push msg_read) (start []))))
  = ([] ++ [merge_query deployed (VInt 1) (VStr "A") (VStr "B") (VStr "a@b.com")])%list.
Proof.
  eapply (other_ops_upsert deployed (Warehouse.client (TABLE_ID deployed))
            (push msg_read) _ _ _ (VStr "r") _ _ _ _ _ (start []));
    reflexivity.
Defined.

Lemma delete_reads_before_witness :
  queries (trace (snd (index deployed (push msg_delete_both) (start []))))
  = ([] ++ [delete_query deployed (VInt 7)])%list.
Proof.
  eapply (delete_reads_before deployed (Warehouse.client (TABLE_ID deployed))
            (push msg_delete_both) _ _ _ _ _ (start []));
    reflexivity.
Defined.

Lemma unreadable_row_not_sent_witness :
  index deployed (push msg_short_row) (start [])
  = (Ok ("Message processing error", 200),
     World []
       [Printed (LogProcessing (VStr "c")
                   (VDict [("id", VInt 1); ("first_name", VStr "A")]));
        Printed (LogUnexpected (KeyError "last_name"))]).
Proof.
  eapply (unreadable_row_not_sent deployed (Warehouse.client (TABLE_ID deployed))
            (push msg_short_row) _ _ _ (VStr "c") _ _ (start []));
    reflexivity.
Defined.

(** ** Events applied to the warehouse of the deployment *)

Lemma delete_upsert r t :
  Warehouse.delete (Warehouse.id r) (Warehouse.upsert r t)
  = Warehouse.delete (Warehouse.id r) t.
Proof.
  unfold Warehouse.delete, Warehouse.upsert.
  destruct (existsb (fun x => Warehouse.id x =? Warehouse.id r) t).
  - induction t as [|x t IH]; [reflexivity|]. cbn [map filter].
    destruct (Warehouse.id x =? Warehouse.id r) eqn:E.
    + rewrite Z.eqb_refl. cbn [negb]. exact IH.
    + rewrite E. cbn [negb]. now rewrite IH.
  - rewrite filter_app. cbn [filter]. rewrite Z.eqb_refl. cbn [negb].
    apply List.app_nil_r.
Qed.

Section Delivered.

Variable project : option string.
Hypothesis name_ok : Warehouse.plain_name (TABLE_ID (deployment project)) = true.

Lemma upsert_event_applied req text d p op data n f l e w :
  decode_message (deployment project) req = Ok (text, VDict d) ->
  lookup "payload" d = Some (VDict p) ->
  lookup "op" p = Some op -> truthy op = true -> eq_str "d" op = false ->
  lookup "after" p = Some data ->
  getitem data "id" = Ok (VInt n) ->
  getitem data "first_name" = Ok (VStr f) ->
  getitem data "last_name" = Ok (VStr l) ->
  getitem data "email" = Ok (VStr e) ->
  Warehouse.plain f = true -> Warehouse.plain l = true -> Warehouse.plain e = true ->
  index (deployment project) req w
  = (Ok ("", 204),
     World (Warehouse.upsert (Warehouse.Row n f l e) (warehouse w))
       (trace w
        ++ [Printed (LogProcessing op data);
            Printed (LogRunningQuery
              (merge_query (deployment project) (VInt n) (VStr f) (VStr l) (VStr e)));
            Queried
              (merge_query (deployment project) (VInt n) (VStr f) (VStr l) (VStr e));
            Printed (LogMerged (VInt n))])).
Proof.
  intros Hd Hp Hop Hto Hno Ha Hi Hf Hl He Pf Pl Pe.
  assert (Hreq : required_row p = Some data)
    by (unfold required_row; now rewrite Hop, Hno).
  destruct (applied_event (deployment project) req text d p op data
              Hd Hp Hop Hto Hreq (getitem_truthy _ _ _ Hi))
    as (envelope & Hj & Hn & Hplan).
  rewrite (index_plan (deployment project)
             (Warehouse.client (TABLE_ID (deployment project)))
             req envelope w eq_refl Hj Hn), Hplan, Hno.
  rewrite (run_bq_merge_plain project name_ok n f l e data _ Hi Hf Hl He Pf Pl Pe).
  cbn [warehouse trace]. now rewrite <- List.app_assoc.
Qed.

Lemma delete_event_applied req text d p data n w :
  decode_message (deployment project) req = Ok (text, VDict d) ->
  lookup "payload" d = Some (VDict p) ->
  lookup "op" p = Some (VStr "d") ->
  lookup "before" p = Some data ->
  getitem data "id" = Ok (VInt n) ->
  index (deployment project) req w
  = (Ok ("", 204),
     World (Warehouse.delete n (warehouse w))
       (trace w
        ++ [Printed (LogProcessing (VStr "d") data);
            Printed (LogRunningQuery (delete_query (deployment project) (VInt n)));
            Queried (delete_query (deployment project) (VInt n));
            Printed (LogDeleted (VInt n))])).
Proof.
  intros Hd Hp Hop Hb Hi.
  assert (Hreq : required_row p = Some data)
    by (unfold required_row; now rewrite Hop).
  destruct (applied_event (deployment project) req text d p (VStr "d") data
              Hd Hp Hop eq_refl Hreq (getitem_truthy _ _ _ Hi))
    as (envelope & Hj & Hn & Hplan).
  rewrite (index_plan (deployment project)
             (Warehouse.client (TABLE_ID (deployment project)))
             req envelope w eq_refl Hj Hn), Hplan.
  cbn [eq_str String.eqb Ascii.eqb Bool.eqb].
  rewrite (run_bq_delete_integer project name_ok n data _ Hi).
  cbn [warehouse trace]. now rewrite <- List.app_assoc.
Qed.

(** X13.  An upsert event whose key is an integer and whose three texts
    are plain is answered [204], and the table afterwards is the table
    before with the row upserted: the rows that had the key now hold the
    four values, and the row is appended when there was none. *)
Theorem plain_upsert_applied req text d p op data n f l e w :
  decode_message (deployment project) req = Ok (text, VDict d) ->
  lookup "payload" d = Some (VDict p) ->
  lookup "op" p = Some op -> truthy op = true -> eq_str "d" op = false ->
  lookup "after" p = Some data ->
  getitem data "id" = Ok (VInt n) ->
  getitem data "first_name" = Ok (VStr f) ->
  getitem data "last_name" = Ok (VStr l) ->
  getitem data "email" = Ok (VStr e) ->
  Warehouse.plain f = true -> Warehouse.plain l = true -> Warehouse.plain e = true ->
  fst (index (deployment project) req w) = Ok ("", 204)
  /\ warehouse (snd (index (deployment project) req w))
     = Warehouse.upsert (Warehouse.Row n f l e) (warehouse w).
Proof.
  intros Hd Hp Hop Hto Hno Ha Hi Hf Hl He Pf Pl Pe.
  rewrite (upsert_event_applied req text d p op data n f l e w
             Hd Hp Hop Hto Hno Ha Hi Hf Hl He Pf Pl Pe).
  split; reflexivity.
Qed.

(** X14.  A delete event whose key is an integer is answered [204], and
    the table afterwards is the table before without the rows that have
    the key; the other rows stay, in their order. *)
Theorem integer_delete_applied req text d p data n w :
  decode_message (deployment project) req = Ok (text, VDict d) ->
  lookup "payload" d = Some (VDict p) ->
  lookup "op" p = Some (VStr "d") ->
  lookup "before" p = Some data ->
  getitem data "id" = Ok (VInt n) ->
  fst (index (deployment project) req w) = Ok ("", 204)
  /\ warehouse (snd (index (deployment project) req w))
     = Warehouse.delete n (warehouse w).
Proof.
  intros Hd Hp Hop Hb Hi.
  rewrite (delete_event_applied req text d p data n w Hd Hp Hop Hb Hi).
  split; reflexivity.
Qed.

(** X17.  Delivering an upsert event with a plain row a second time
    changes nothing: the table after the second delivery is the table
    after the first, and the second is answered [204] as well. *)
Theorem plain_upsert_redelivered req text d p op data n f l e w :
  decode_message (deployment project) req = Ok (text, VDict d) ->
  lookup "payload" d = Some (VDict p) ->
  lookup "op" p = Some op -> truthy op = true -> eq_str "d" op = false ->
  lookup "after" p = Some data ->
  getitem data "id" = Ok (VInt n) ->
  getitem data "first_name" = Ok (VStr f) ->
  getitem data "last_name" = Ok (VStr l) ->
  getitem data "email" = Ok (VStr e) ->
  Warehouse.plain f = true -> Warehouse.plain l = true -> Warehouse.plain e = true ->
  let once := index (deployment project) req w in
  let twice := index (deployment project) req (snd once) in
  fst twice = Ok ("", 204) /\ warehouse (snd twice) = warehouse (snd once).
Proof.
  intros Hd Hp Hop Hto Hno Ha Hi Hf Hl He Pf Pl Pe once twice.
  subst twice once.
  rewrite !(upsert_event_applied req text d p op data n f l e _
              Hd Hp Hop Hto Hno Ha Hi Hf Hl He Pf Pl Pe).
  cbn [fst snd warehouse]. split; [reflexivity|].
  apply WarehouseFacts.upsert_idempotent.
Qed.

(** X19.  Delivering a delete event with an integer key a second time
    changes nothing, whether or not the key was in the table: the table
    after the second delivery is the table after the first, and the
    second is answered [204] as well. *)
Theorem integer_delete_redelivered req text d p data n w :
  decode_message (deployment project) req = Ok (text, VDict d) ->
  lookup "payload" d = Some (VDict p) ->
  lookup "op" p = Some (VStr "d") ->
  lookup "before" p = Some data ->
  getitem data "id" = Ok (VInt n) ->
  let once := index (deployment project) req w in
  let twice := index (deployment project) req (snd once) in
  fst twice = Ok ("", 204) /\ warehouse (snd twice) = warehouse (snd once).
Proof.
  intros Hd Hp Hop Hb Hi once twice. subst twice once.
  rewrite !(delete_event_applied req text d p data n _ Hd Hp Hop Hb Hi).
  cbn [fst snd warehouse]. split; [reflexivity|].
  apply WarehouseFacts.delete_idempotent.
Qed.

(** X20.  A delete after an upsert of the same integer key leaves what
    the delete alone would have left: no row with the key, and the other
    rows as they were. *)
Theorem delete_after_merge row gone n f l e w :
  getitem row "id" = Ok (VInt n) ->
  getitem row "first_name" = Ok (VStr f) ->
  getitem row "last_name" = Ok (VStr l) ->
  getitem row "email" = Ok (VStr e) ->
  Warehouse.plain f = true -> Warehouse.plain l = true -> Warehouse.plain e = true ->
  getitem gone "id" = Ok (VInt n) ->
  let c := Warehouse.client (TABLE_ID (deployment project)) in
  let merged := run_bq_merge (deployment project) c row w in
  let deleted := run_bq_delete (deployment project) c gone (snd merged) in
  fst merged = Ok tt /\ fst deleted = Ok tt
  /\ warehouse (snd deleted) = Warehouse.delete n (warehouse w)
  /\ existsb (fun x => Warehouse.id x =? n) (warehouse (snd deleted)) = false.
Proof.
  intros Hi Hf Hl He Pf Pl Pe Hg c merged deleted. subst deleted merged c.
  rewrite (run_bq_merge_plain project name_ok n f l e row w Hi Hf Hl He Pf Pl Pe).
  cbn [fst snd].
  rewrite (run_bq_delete_integer project name_ok n gone _ Hg).
  cbn [fst snd warehouse].
  rewrite (delete_upsert (Warehouse.Row n f l e)). cbn [Warehouse.id].
  repeat split.
  unfold Warehouse.delete. induction (warehouse w) as [|x t IH]; [reflexivity|].
  cbn [filter]. destruct (Warehouse.id x =? n) eqn:E; cbn [negb]; [exact IH|].
  cbn [existsb]. now rewrite E.
Qed.

End Delivered.

Lemma plain_upsert_applied_witness :
  fst (index (deployment (Some "p")) (push msg_create) (start [])) = Ok ("", 204)
  /\ warehouse (snd (index (deployment (Some "p")) (push msg_create) (start [])))
     = Warehouse.upsert (Warehouse.Row 1 "A" "B" "a@b.com") (warehouse (start [])).
Proof.
  eapply (plain_upsert_applied (Some "p") eq_refl (push msg_create) _ _ _ (VStr "c") _
            1 "A" "B" "a@b.com" (start []));
    reflexivity.
Defined.

Lemma integer_delete_applied_witness :
  let t := [Warehouse.Row 1 "A" "B" "a@b.com"; Warehouse.Row 2 "C" "D" "c@d.com"] in
  fst (index (deployment (Some "p")) (push msg_delete) (start t)) = Ok ("", 204)
  /\ warehouse (snd (index (deployment (Some "p")) (push msg_delete) (start t)))
     = Warehouse.delete 1 (warehouse (start t)).
Proof.
  eapply (integer_delete_applied (Some "p") eq_refl (push msg_delete) _ _ _ _ 1
            (start [Warehouse.Row 1 "A" "B" "a@b.com";
                    Warehouse.Row 2 "C" "D" "c@d.com"]));
    reflexivity.
Defined.

Lemma plain_upsert_redelivered_witness :
  let once := index (deployment (Some "p")) (push msg_update) (start []) in
  let twice := index (deployment (Some "p")) (push msg_update) (snd once) in
  fst twice = Ok ("", 204) /\ warehouse (snd twice) = warehouse (snd once).
Proof.
  eapply (plain_upsert_redelivered (Some "p") eq_refl (push msg_update) _ _ _
            (VStr "u") _ 1 "A" "B" "new@b.com" (start []));
    reflexivity.
Defined.

Lemma integer_delete_redelivered_witness :
  let w := start [Warehouse.Row 1 "A" "B" "a@b.com"] in
  let once := index (deployment (Some "p")) (push msg_delete) w in
  let twice := index (deployment (Some "p")) (push msg_delete) (snd once) in
  fst twice = Ok ("", 204) /\ warehouse (snd twice) = warehouse (snd once).
Proof.
  eapply (integer_delete_redelivered (Some "p") eq_refl (push msg_delete) _ _ _ _ 1
            (start [Warehouse.Row 1 "A" "B" "a@b.com"]));
    reflexivity.
Defined.

Lemma delete_after_merge_witness :
  let row := VDict [("id", VInt 3); ("first_name", VStr "A");
                    ("last_name", VStr "B"); ("email", VStr "a@b.com")] in
  let gone := VDict [("id", VInt 3)] in
  let w := start [Warehouse.Row 2 "C" "D" "c@d.com"] in
  let c := Warehouse.client (TABLE_ID (deployment (Some "p"))) in
  let merged := run_bq_merge (deployment (Some "p")) c row w in
  let deleted := run_bq_delete (deployment (Some "p")) c gone (snd merged) in
  fst merged = Ok tt /\ fst deleted = Ok tt
  /\ warehouse (snd deleted) = Warehouse.delete 3 (warehouse w)
  /\ existsb (fun x => Warehouse.id x =? 3) (warehouse (snd deleted)) = false.
Proof.
  apply (delete_after_merge (Some "p") eq_refl
           (VDict [("id", VInt 3); ("first_name", VStr "A");
                   ("last_name", VStr "B"); ("email", VStr "a@b.com")])
           (VDict [("id", VInt 3)]) 3 "A" "B" "a@b.com"
           (start [Warehouse.Row 2 "C" "D" "c@d.com"]));
    reflexivity.
Defined.

(** ** The table of a module with no project *)

(** X12.  With no [PROJECT_ID] in the environment the module loads all
    the same, and the statements it sends name the table of a project
    called [None]. *)
Theorem no_project_targets_none {W} (rt : runtime W) n f l e :
  PROJECT_ID rt = None ->
  Warehouse.plain f = true -> Warehouse.plain l = true -> Warehouse.plain e = true ->
  TABLE_ID rt = "None.my_bq_dataset.customers"
  /\ Warehouse.parse_script (delete_query rt (VInt n))
     = Some [Warehouse.Delete "None.my_bq_dataset.customers" (Warehouse.IdIs n)]
  /\ Warehouse.parse_script (merge_query rt (VInt n) (VStr f) (VStr l) (VStr e))
     = Some [Warehouse.Merge "None.my_bq_dataset.customers" (Warehouse.Row n f l e)
               (Warehouse.IdIs n) true true].
Proof.
  intros Hp Pf Pl Pe.
  assert (E : TABLE_ID rt = "None.my_bq_dataset.customers")
    by (unfold TABLE_ID; now rewrite Hp).
  assert (Hn : Warehouse.plain_name (TABLE_ID rt) = true) by now rewrite E.
  split; [exact E|]. rewrite <- E. split.
  - now apply WarehouseFacts.parse_script_delete.
  - now apply WarehouseFacts.parse_script_merge.
Qed.

Lemma no_project_targets_none_witness :
  TABLE_ID (deployment None) = "None.my_bq_dataset.customers"
  /\ Warehouse.parse_script (delete_query (deployment None) (VInt 1))
     = Some [Warehouse.Delete "None.my_bq_dataset.customers" (Warehouse.IdIs 1)]
  /\ Warehouse.parse_script
       (merge_query (deployment None) (VInt 1) (VStr "A") (VStr "B") (VStr "a@b.com"))
     = Some [Warehouse.Merge "None.my_bq_dataset.customers"
               (Warehouse.Row 1 "A" "B" "a@b.com") (Warehouse.IdIs 1) true true].
Proof.
  apply (no_project_targets_none (deployment None) 1 "A" "B" "a@b.com");
    reflexivity.
Defined.
